(** * The Logic Apps adapter of the connected-agents notebook

    A shallow embedding of the class [AzureLogicAppTool] and of the tool
    factory [create_send_email_function], the only first-party logic of the
    notebook, together with the properties the specification states about
    them.

    Python values are modelled as follows.
    - [str] is [string]; a literal of the source is the UTF-8 text of that
      literal, and concatenation is [+:+].
    - [self.callback_urls] is a [gmap] from names to the value stored by
      [register_logic_app].  The stored value is [callback.value], of Python
      type [Optional[str]], so the map holds [option string]: [Some url] is a
      string and [None] is Python's [None].
    - a payload is a [gmap] from strings to strings (the specification's
      open mapping from string to string); it is only looked up by key and
      handed to the HTTP client as a whole.
    - the dictionary returned by [invoke_logic_app] is the list of its items
      in insertion order, which is the order [json.dumps] writes them in.
    - [print], [requests.post] and the management client's
      [list_callback_url] are the three effects of the code: a computation is
      a tree of these calls.  [print] writes its line and returns; the two
      remote calls answer with a value or with a raised exception, any
      instance of [Exception].

    The cells of the two notebooks around the class are embedded as well:
    the check of the environment variables, the setup of the tool, and the
    loops that read the answers of the agents.  For those, the messages and
    the responses an agent service returns are given as lists. *)

From Stdlib Require Import ZArith NArith Ascii DecimalString.
From stdpp Require Import base option list strings gmap.

(** ** Exceptions and results of calls *)

(** An exception object, as far as the code looks at it: [str(e)]. *)
Record exn : Type := Exception { exn_class : string; exn_str : string }.

Definition ValueError (msg : string) : exn := Exception "ValueError" msg.

(** What a call does: it returns a value or raises. *)
Inductive outcome (A : Type) : Type :=
| Returned (a : A)
| Raised (e : exn).
Arguments Returned {A} a.
Arguments Raised {A} e.

(** [str(n)] for an [int]. *)
Definition str_of_int (n : Z) : string := NilZero.string_of_int (Z.to_int n).

(** ** The HTTP client: what the code uses of [requests] *)

Module requests.

Record Response : Type := { status_code : Z; text : string }.

(** [Response.raise_for_status] raises for a client error, 400 to 499,
    and for a server error, 500 to 599. *)
Definition raise_for_status_raises (r : Response) : bool :=
  ((400 <=? status_code r) && (status_code r <? 500)
   || (500 <=? status_code r) && (status_code r <? 600))%Z.

(** [Response.ok]: true unless [raise_for_status] raises. *)
Definition ok (r : Response) : bool := negb (raise_for_status_raises r).

End requests.

(** ** The management client: the result of [list_callback_url] *)

Record WorkflowTriggerCallbackUrl : Type := { value : option string }.

(** ** The effects *)

(** The tree of external calls of a computation that ends with an [A]. *)
Inductive io (A : Type) : Type :=
| Done (a : A)
| Print (line : string) (k : io A)
| RequestsPost (url : option string) (json : gmap string string) (timeout : Z)
    (k : outcome requests.Response → io A)
| ListCallbackUrl (resource_group_name workflow_name trigger_name : string)
    (k : outcome WorkflowTriggerCallbackUrl → io A).
Arguments Done {A} a.
Arguments Print {A} line k.
Arguments RequestsPost {A} url json timeout k.
Arguments ListCallbackUrl {A} resource_group_name workflow_name trigger_name k.

Fixpoint io_bind {A B : Type} (m : io A) (f : A → io B) : io B :=
  match m with
  | Done a => f a
  | Print line k => Print line (io_bind k f)
  | RequestsPost url json timeout k =>
      RequestsPost url json timeout (λ o, io_bind (k o) f)
  | ListCallbackUrl rg wf tr k =>
      ListCallbackUrl rg wf tr (λ o, io_bind (k o) f)
  end.

(** ** The object and the computations over it *)

(** The fields of an [AzureLogicAppTool] that the methods read or write.
    [logic_client] is the management client behind [ListCallbackUrl]. *)
Record AzureLogicAppTool : Type := {
  subscription_id : string;
  resource_group : string;
  callback_urls : gmap string (option string)
}.

(** A computation that runs against one [AzureLogicAppTool] object: from the
    state of the object before, the tree of calls, ending with what the
    computation returned or raised and the state of the object after.  An
    assignment to a field made before an exception is raised is kept. *)
Definition py (A : Type) : Type :=
  AzureLogicAppTool → io (outcome A * AzureLogicAppTool).

Definition py_ret {A : Type} (a : A) : py A := λ self, Done (Returned a, self).

Definition py_bind {A B : Type} (f : A → py B) (m : py A) : py B :=
  λ self, io_bind (m self) (λ r,
    match r.1 with
    | Returned a => f a r.2
    | Raised e => Done (Raised e, r.2)
    end).

#[global] Instance py_mret : MRet py := @py_ret.
#[global] Instance py_mbind : MBind py := @py_bind.

(** [raise e] *)
Definition raise {A : Type} (e : exn) : py A := λ self, Done (Raised e, self).

(** [try: body except Exception as e: handler e] *)
Definition try_except {A : Type} (body : py A) (handler : exn → py A) : py A :=
  λ self, io_bind (body self) (λ r,
    match r.1 with
    | Returned a => Done (Returned a, r.2)
    | Raised e => handler e r.2
    end).

(** [print(line)] *)
Definition print (line : string) : py unit :=
  λ self, Print line (Done (Returned tt, self)).

(** [requests.post(url=url, json=json, timeout=timeout)] *)
Definition requests_post (url : option string) (json : gmap string string)
    (timeout : Z) : py requests.Response :=
  λ self, RequestsPost url json timeout (λ o, Done (o, self)).

(** [self.logic_client.workflow_triggers.list_callback_url(...)] *)
Definition list_callback_url (resource_group_name workflow_name trigger_name : string)
    : py WorkflowTriggerCallbackUrl :=
  λ self, ListCallbackUrl resource_group_name workflow_name trigger_name
            (λ o, Done (o, self)).

(** Reading [self]. *)
Definition get_self : py AzureLogicAppTool := λ self, Done (Returned self, self).

(** The object after [self.callback_urls[name] = v]. *)
Definition with_callback_url (self : AzureLogicAppTool) (name : string)
    (v : option string) : AzureLogicAppTool :=
  {| subscription_id := subscription_id self;
     resource_group := resource_group self;
     callback_urls := <[name := v]> (callback_urls self) |}.

(** [self.callback_urls[key] = v] *)
Definition setitem_callback_urls (key : string) (v : option string) : py unit :=
  λ self, Done (Returned tt, with_callback_url self key v).

(** [payload.get(key, default)] *)
Definition dict_get (d : gmap string string) (key default : string) : string :=
  match d !! key with
  | Some v => v
  | None => default
  end.

(** ** [json.dumps] on a dictionary of strings *)

Module json.

(** The code points of a [str], read from its UTF-8 text: one byte below
    [0xC0] is a code point of its own, a lead byte takes one, two or three
    continuation bytes.  (A text cut in the middle of a character is not
    the text of any [str]; the bytes that are there are read.) *)
Definition continuation (c : ascii) : N := N.land (N_of_ascii c) 0x3F.

Fixpoint code_points (s : string) : list N :=
  match s with
  | EmptyString => []
  | String c0 s1 =>
      let b0 := N_of_ascii c0 in
      if (b0 <? 0xC0)%N then b0 :: code_points s1
      else
        match s1 with
        | EmptyString => [N.land b0 0x1F]
        | String c1 s2 =>
            let u2 := N.lor (N.shiftl (N.land b0 0x1F) 6) (continuation c1) in
            if (b0 <? 0xE0)%N then u2 :: code_points s2
            else
              match s2 with
              | EmptyString => [N.lor (N.shiftl (N.land b0 0x0F) 6) (continuation c1)]
              | String c2 s3 =>
                  let u3 :=
                    N.lor (N.shiftl (N.land b0 0x0F) 12)
                      (N.lor (N.shiftl (continuation c1) 6) (continuation c2)) in
                  if (b0 <? 0xF0)%N then u3 :: code_points s3
                  else
                    match s3 with
                    | EmptyString =>
                        [N.lor (N.shiftl (N.land b0 0x07) 12)
                           (N.lor (N.shiftl (continuation c1) 6) (continuation c2))]
                    | String c3 s4 =>
                        N.lor (N.shiftl (N.land b0 0x07) 18)
                          (N.lor (N.shiftl (continuation c1) 12)
                             (N.lor (N.shiftl (continuation c2) 6) (continuation c3)))
                        :: code_points s4
                    end
              end
        end
  end.

Definition backslash : ascii := "092".

Definition hex_digit (n : N) : ascii :=
  if (n <? 10)%N then ascii_of_N (48 + n) else ascii_of_N (87 + n).

(** A backslash, [u] and the four lowercase hexadecimal digits of [n], for
    [n] below [0x10000]. *)
Definition u_escape (n : N) : string :=
  String backslash (String "u"
    (String (hex_digit (N.land (N.shiftr n 12) 0xF))
    (String (hex_digit (N.land (N.shiftr n 8) 0xF))
    (String (hex_digit (N.land (N.shiftr n 4) 0xF))
    (String (hex_digit (N.land n 0xF)) EmptyString))))).

(** The replacement of one code point by [encode_basestring_ascii]: the
    two-character escapes of [ESCAPE_DCT], the printable ASCII characters
    as they are, a [u] escape for the rest, a surrogate pair from [0x10000]. *)
Definition escape (n : N) : string :=
  if (n =? 0x22)%N then String backslash (String "034" EmptyString)
  else if (n =? 0x5C)%N then String backslash (String backslash EmptyString)
  else if (n =? 8)%N then String backslash (String "b" EmptyString)
  else if (n =? 12)%N then String backslash (String "f" EmptyString)
  else if (n =? 10)%N then String backslash (String "n" EmptyString)
  else if (n =? 13)%N then String backslash (String "r" EmptyString)
  else if (n =? 9)%N then String backslash (String "t" EmptyString)
  else if (0x20 <=? n)%N && (n <=? 0x7E)%N then String (ascii_of_N n) EmptyString
  else if (n <? 0x10000)%N then u_escape n
  else
    let v := (n - 0x10000)%N in
    u_escape (N.lor 0xD800 (N.land (N.shiftr v 10) 0x3FF))
    +:+ u_escape (N.lor 0xDC00 (N.land v 0x3FF)).

Definition quote : string := String "034" EmptyString.

Definition encode_basestring_ascii (s : string) : string :=
  quote +:+ foldr (λ n acc, escape n +:+ acc) "" (code_points s) +:+ quote.

Definition dumps_item (kv : string * string) : string :=
  encode_basestring_ascii kv.1 +:+ ": " +:+ encode_basestring_ascii kv.2.

Fixpoint join (sep : string) (l : list string) : string :=
  match l with
  | [] => ""
  | [x] => x
  | x :: rest => x +:+ sep +:+ join sep rest
  end.

(** [json.dumps(d)] with the default separators and [ensure_ascii]. *)
Definition dumps (d : list (string * string)) : string :=
  "{" +:+ join ", " (dumps_item <$> d) +:+ "}".

End json.

(** ** The class [AzureLogicAppTool] *)

(** [__init__(self, subscription_id, resource_group, credential)]: the
    credential goes to the management client; the table of callback URLs
    starts empty. *)
Definition __init__ (subscription_id resource_group : string) : AzureLogicAppTool :=
  {| subscription_id := subscription_id;
     resource_group := resource_group;
     callback_urls := ∅ |}.

(** [register_logic_app(self, logic_app_name, trigger_name)] *)
Definition register_logic_app (logic_app_name trigger_name : string) : py unit :=
  try_except
    (self ← get_self;
     callback ← list_callback_url (resource_group self) logic_app_name trigger_name;
     (if value callback is None
      then raise (ValueError ("No callback URL returned for Logic App '"
                              +:+ logic_app_name +:+ "'."))
      else mret tt);;
     setitem_callback_urls logic_app_name (value callback);;
     print ("✅ Registered Logic App: " +:+ logic_app_name))
    (λ e,
     print ("⚠️ Warning: Could not register Logic App '" +:+ logic_app_name
            +:+ "': " +:+ exn_str e);;
     print "💡 This is expected if the Logic App doesn't exist - emails will be simulated").

(** [invoke_logic_app(self, logic_app_name, payload)].  The test
    [logic_app_name not in self.callback_urls] and the subscript
    [self.callback_urls[logic_app_name]] read the same table with nothing in
    between, so they are one lookup: the subscript is only reached for a key
    that is there. *)
Definition invoke_logic_app (logic_app_name : string) (payload : gmap string string)
    : py (list (string * string)) :=
  self ← get_self;
  match callback_urls self !! logic_app_name with
  | None =>
      print "📧 SIMULATED EMAIL:";;
      print ("   To: " +:+ dict_get payload "to" "unknown");;
      print ("   Subject: " +:+ dict_get payload "subject" "unknown");;
      print ("   Body: " +:+ dict_get payload "body" "unknown");;
      mret [("result", "Successfully simulated email via " +:+ logic_app_name +:+ ".")]
  | Some url =>
      try_except
        (response ← requests_post url payload 30;
         if requests.ok response
         then
           print ("✅ Successfully invoked Logic App: " +:+ logic_app_name);;
           mret [("result", "Successfully invoked " +:+ logic_app_name +:+ ".")]
         else
           print ("⚠️ Error invoking Logic App: " +:+ logic_app_name +:+ " ("
                  +:+ str_of_int (requests.status_code response) +:+ ")");;
           mret [("error", "Error invoking " +:+ logic_app_name +:+ " ("
                           +:+ str_of_int (requests.status_code response) +:+ "): "
                           +:+ requests.text response)])
        (λ e,
         print ("⚠️ Exception invoking Logic App: " +:+ logic_app_name +:+ " - "
                +:+ exn_str e);;
         mret [("error", "Error invoking " +:+ logic_app_name +:+ ": " +:+ exn_str e)])
  end.

(** [create_send_email_function(service, logic_app_name)] returns the closure
    [send_email_via_logic_app].  The closure keeps a reference to [service],
    not a copy: it is a computation over the object, whose state it reads
    when it is called. *)
Definition send_email_via_logic_app (logic_app_name : string)
    (to subject body : string) : py string :=
  let payload : gmap string string :=
    {[ "to" := to; "subject" := subject; "body" := body ]} in
  result ← invoke_logic_app logic_app_name payload;
  print "📧 Email sent via Logic App:";;
  mret (json.dumps result).

Definition create_send_email_function (logic_app_name : string)
    : string → string → string → py string :=
  send_email_via_logic_app logic_app_name.

(** ** Running a computation *)

(** The two remote services, as they answer during one call of a method
    (a method makes at most one remote call). *)
Record environment : Type := {
  post_answer : option string → gmap string string → Z → outcome requests.Response;
  callback_answer : string → string → string → outcome WorkflowTriggerCallbackUrl
}.

(** What a run leaves behind, in order. *)
Inductive event : Type :=
| Printed (line : string)
| Posted (url : option string) (json : gmap string string) (timeout : Z)
| Resolved (resource_group_name workflow_name trigger_name : string).

Fixpoint run_io {A : Type} (env : environment) (m : io A) : A * list event :=
  match m with
  | Done a => (a, [])
  | Print line k =>
      let r := run_io env k in (r.1, Printed line :: r.2)
  | RequestsPost url json timeout k =>
      let r := run_io env (k (post_answer env url json timeout)) in
      (r.1, Posted url json timeout :: r.2)
  | ListCallbackUrl rg wf tr k =>
      let r := run_io env (k (callback_answer env rg wf tr)) in
      (r.1, Resolved rg wf tr :: r.2)
  end.

(** The result of a method call: what it returned or raised, the object
    after the call, and the trace of the call. *)
Record ran (A : Type) : Type := Ran {
  result : outcome A;
  after : AzureLogicAppTool;
  trace : list event
}.
Arguments Ran {A} result after trace.
Arguments result {A} r.
Arguments after {A} r.
Arguments trace {A} r.

Definition run {A : Type} (env : environment) (m : py A) (self : AzureLogicAppTool)
    : ran A :=
  let r := run_io env (m self) in Ran r.1.1 r.1.2 r.2.

(** The HTTP requests of a trace, and what it printed. *)
Definition posts (t : list event) : list (option string * gmap string string * Z) :=
  omap (λ ev, match ev with Posted u j n => Some (u, j, n) | _ => None end) t.

Definition printed (t : list event) : list string :=
  omap (λ ev, match ev with Printed l => Some l | _ => None end) t.

(** ** The outcome of a dispatch, in the specification's words *)

(** [Success{message}] is the dictionary [{"result": message}] and
    [Failure{message}] is [{"error": message}]. *)
Definition Success (message : string) (r : outcome (list (string * string))) : Prop :=
  r = Returned [("result", message)].

Definition Failure (message : string) (r : outcome (list (string * string))) : Prop :=
  r = Returned [("error", message)].

(** The messages of the three ways a dispatch ends. *)
Definition simulated_message (logic_app_name : string) : string :=
  "Successfully simulated email via " +:+ logic_app_name +:+ ".".

Definition invoked_message (logic_app_name : string) : string :=
  "Successfully invoked " +:+ logic_app_name +:+ ".".

Definition status_error_message (logic_app_name : string) (r : requests.Response) : string :=
  "Error invoking " +:+ logic_app_name +:+ " (" +:+ str_of_int (requests.status_code r)
  +:+ "): " +:+ requests.text r.

Definition exception_message (logic_app_name : string) (e : exn) : string :=
  "Error invoking " +:+ logic_app_name +:+ ": " +:+ exn_str e.

(** What the simulation prints. *)
Definition simulation_lines (payload : gmap string string) : list string :=
  [ "📧 SIMULATED EMAIL:";
    "   To: " +:+ dict_get payload "to" "unknown";
    "   Subject: " +:+ dict_get payload "subject" "unknown";
    "   Body: " +:+ dict_get payload "body" "unknown" ].

(** The failures of the resolver: the management client raises (workflow or
    trigger missing, network error, authentication error), or it answers
    with no callback URL. *)
Definition resolver_fails (o : outcome WorkflowTriggerCallbackUrl) : Prop :=
  match o with
  | Raised _ => True
  | Returned callback => value callback = None
  end.

(** The two lines printed when a registration fails with description [d]. *)
Definition warning_lines (logic_app_name d : string) : list string :=
  [ "⚠️ Warning: Could not register Logic App '" +:+ logic_app_name +:+ "': " +:+ d;
    "💡 This is expected if the Logic App doesn't exist - emails will be simulated" ].

Definition no_callback_url_message (logic_app_name : string) : string :=
  "No callback URL returned for Logic App '" +:+ logic_app_name +:+ "'.".

(** ** The operations and the objects a program can hold *)

(** The operations on an object after its construction. *)
Inductive operation : Type :=
| Register (logic_app_name trigger_name : string)
| Invoke (logic_app_name : string) (payload : gmap string string)
| SendEmail (logic_app_name to subject body : string).

Definition perform (env : environment) (op : operation) (self : AzureLogicAppTool)
    : AzureLogicAppTool :=
  match op with
  | Register logic_app_name trigger_name =>
      after (run env (register_logic_app logic_app_name trigger_name) self)
  | Invoke logic_app_name payload =>
      after (run env (invoke_logic_app logic_app_name payload) self)
  | SendEmail logic_app_name to subject body =>
      after (run env (create_send_email_function logic_app_name to subject body) self)
  end.

(** The objects a program can hold: a constructed one, then any operations,
    each against any behaviour of the remote services. *)
Inductive reachable : AzureLogicAppTool → Prop :=
| reachable_init (subscription_id resource_group : string) :
    reachable (__init__ subscription_id resource_group)
| reachable_step (env : environment) (op : operation) (self : AzureLogicAppTool) :
    reachable self → reachable (perform env op self).

(** No name is mapped to [None]. *)
Definition no_null_endpoint (self : AzureLogicAppTool) : Prop :=
  map_Forall (λ _ endpoint, is_Some endpoint) (callback_urls self).

(** ** Example objects and environments *)

Module Examples.

(** An endpoint that answers every POST with the given status and body,
    behind a resolver that knows the given callback URL. *)
Definition answering (status : Z) (body : string) (callback : option string)
    : environment :=
  {| post_answer := λ _ _ _,
       Returned {| requests.status_code := status; requests.text := body |};
     callback_answer := λ _ _ _, Returned {| value := callback |} |}.

(** No network: every remote call raises. *)
Definition unreachable (description : string) : environment :=
  {| post_answer := λ _ _ _, Raised (Exception "ConnectionError" description);
     callback_answer := λ _ _ _,
       Raised (Exception "ServiceRequestError" description) |}.

Definition hook : string := "https://example.org/hook?sig=abc".

Definition fresh : AzureLogicAppTool := __init__ "subscription" "resource-group".

Definition registered : AzureLogicAppTool :=
  with_callback_url fresh "sales-alert" (Some hook).

Definition quarter : gmap string string :=
  {[ "to" := "a@b.com"; "subject" := "Q3"; "body" := "Great quarter" ]}.

End Examples.

(** ** The calls to the management client in a trace *)

Definition resolutions (t : list event) : list (string * string * string) :=
  omap (λ ev, match ev with Resolved rg wf tr => Some (rg, wf, tr) | _ => None end) t.

(** ** Text without escapes *)

(** The characters [json.dumps] leaves as they are: printable ASCII other
    than the double quote and the backslash. *)
Definition plain_char (c : ascii) : bool :=
  let n := N_of_ascii c in
  (0x20 <=? n)%N && (n <=? 0x7E)%N && negb (n =? 0x22)%N && negb (n =? 0x5C)%N.

Fixpoint plain (s : string) : bool :=
  match s with
  | EmptyString => true
  | String c rest => plain_char c && plain rest
  end.

(** Printable ASCII. *)
Definition printable_char (c : ascii) : bool :=
  let n := N_of_ascii c in (0x20 <=? n)%N && (n <=? 0x7E)%N.

Fixpoint printable (s : string) : bool :=
  match s with
  | EmptyString => true
  | String c rest => printable_char c && printable rest
  end.

(** ** The cells of the notebook around the class *)



Module os.


End os.

Module notebook.




(** The cell "Logic App details". *)
Definition logic_app_name : string := "agent-logic-apps".

Definition trigger_name : string := "When_a_HTTP_request_is_received".

(** [logic_app_tool = AzureLogicAppTool(subscription_id, resource_group)] *)
Definition logic_app_tool (subscription_id resource_group : string) : AzureLogicAppTool :=
  __init__ subscription_id resource_group.

(** The rest of the cell, run against [logic_app_tool]. *)
Definition configure_logic_app_tool : py unit :=
  register_logic_app logic_app_name trigger_name;;
  print ("Registered logic app '" +:+ logic_app_name +:+ "' with trigger '"
         +:+ trigger_name +:+ "'.");;
  print ("✅ Logic App tool configured for: " +:+ logic_app_name);;
  print ("🔧 Trigger: " +:+ trigger_name);;
  print "📧 Email function created for workflow integration".

(** [send_email_func = create_send_email_function(logic_app_tool, logic_app_name)] *)
Definition send_email_func : string → string → string → py string :=
  create_send_email_function logic_app_name.

End notebook.

(** ** Reading the messages of a thread *)

(** A message of a thread, as the cells read it: its role and the
    [text.value] of each of its text parts, in order. *)
Record ThreadMessage : Type := { role : string; text_messages : list string }.

Definition newline : string := String "010" EmptyString.

(** ["-" * n] *)
Fixpoint dashes (n : nat) : string :=
  match n with
  | O => ""
  | S k => "-" +:+ dashes k
  end.

Section Conversation.

(** [str.upper], of the Python library. *)
Variable upper : string → string.

(** The loop that ends the cell "Test the Logic Apps agent": the lines it
    prints.  [msg.text_messages] is true when the list is not empty, and only
    then is [msg.text_messages[-1]] read, so the two are one [last]. *)
Fixpoint print_conversation (messages : list ThreadMessage) : list string :=
  match messages with
  | [] => []
  | msg :: rest =>
      match last (text_messages msg) with
      | Some value =>
          (newline +:+ "🗨️ " +:+ upper (role msg) +:+ ": " +:+ value)
          :: dashes 80 :: print_conversation rest
      | None => print_conversation rest
      end
  end.

End Conversation.

Module connected_agents.

(** The loop of the cell "Test connected agents": the lines it prints.  It
    stops at the first message it prints ([break]). *)
Fixpoint print_agent_response (messages : list ThreadMessage) : list string :=
  match messages with
  | [] => []
  | msg :: rest =>
      if bool_decide (role msg = "assistant")
      then
        match last (text_messages msg) with
        | Some value => ["🤖 Agent response: " +:+ value]
        | None => print_agent_response rest
        end
      else print_agent_response rest
  end.

Definition user_input : string := "Get me Microsoft's stock price and Seattle's weather".

(** Python 3.12 on reading a local variable that was never assigned. *)
Definition UnboundLocalError (name : string) : exn :=
  Exception "UnboundLocalError"
    ("cannot access local variable '" +:+ name
     +:+ "' where it is not associated with a value").

(** One round of [async for response in coordinator_sk.invoke(user_input)]:
    the line printed so far and the value of [final_response], [None] while
    it is unassigned. *)
Definition coordinator_round (state : option string * list string) (content : string)
    : option string * list string :=
  (Some content, state.2 ++ ["🤖 SK Coordinator: " +:+ content]).

(** [create_sk_coordinator()], once the clients, the wrappers and the kernel
    are built, for the responses the coordinator yields: what it returns or
    raises and the lines it prints. *)
Definition create_sk_coordinator (responses : list string) : outcome string * list string :=
  let state :=
    foldl coordinator_round
      (None,
       [ "🔗 Creating SK client and agent wrappers...";
         "🎯 Azure AI agents wrapped as SK plugins";
         newline +:+ "🧪 Testing SK coordinator with Azure AI agent plugins...";
         "👤 User: " +:+ user_input ])
      responses in
  match state.1 with
  | Some final_response => (Returned final_response, state.2)
  | None => (Raised (UnboundLocalError "final_response"), state.2)
  end.

End connected_agents.

(** ** Example conversations *)

Module Conversations.

(** [str.upper] on ASCII text: the letters [a] to [z] become [A] to [Z]. *)
Definition upper_char (c : ascii) : ascii :=
  let n := N_of_ascii c in
  if (0x61 <=? n)%N && (n <=? 0x7A)%N then ascii_of_N (n - 32) else c.

Fixpoint upper (s : string) : string :=
  match s with
  | EmptyString => EmptyString
  | String c rest => String (upper_char c) (upper rest)
  end.

Definition question : ThreadMessage :=
  {| role := "user"; text_messages := ["Send the sales notification."] |}.

Definition tool_call : ThreadMessage :=
  {| role := "assistant"; text_messages := [] |}.

Definition answer : ThreadMessage :=
  {| role := "assistant"; text_messages := ["Sending."; "The email was sent."] |}.

End Conversations.

(** * Properties *)

(** ** Sequencing *)

Lemma run_io_bind {A B : Type} (env : environment) (m : io A) (f : A → io B) :
  run_io env (io_bind m f)
  = ((run_io env (f (run_io env m).1)).1,
     (run_io env m).2 ++ (run_io env (f (run_io env m).1)).2).
Proof.
  induction m as [a|line k IH|url json timeout k IH|rg wf tr k IH]; simpl.
  - by destruct (run_io env (f a)).
  - by rewrite IH.
  - by rewrite IH.
  - by rewrite IH.
Qed.

(** [m ≫= f] runs [m]; if [m] raised, so does the whole; otherwise [f] runs
    on the value, against the object as [m] left it. *)
Lemma run_bind {A B : Type} (env : environment) (m : py A) (f : A → py B)
    (self : AzureLogicAppTool) :
  run env (m ≫= f) self
  = match result (run env m self) with
    | Returned a =>
        let r := run env (f a) (after (run env m self)) in
        Ran (result r) (after r) (trace (run env m self) ++ trace r)
    | Raised e =>
        Ran (Raised e) (after (run env m self)) (trace (run env m self))
    end.
Proof.
  unfold run, mbind, py_mbind, py_bind. rewrite run_io_bind.
  destruct (run_io env (m self)) as [[[a|e] self'] t]; simpl; [done|].
  by rewrite app_nil_r.
Qed.

Lemma run_print (env : environment) (line : string) (self : AzureLogicAppTool) :
  run env (print line) self = Ran (Returned tt) self [Printed line].
Proof. reflexivity. Qed.

Lemma run_mret {A : Type} (env : environment) (a : A) (self : AzureLogicAppTool) :
  run env (mret a) self = Ran (Returned a) self [].
Proof. reflexivity. Qed.

(** ** The runs of [invoke_logic_app], branch by branch *)

Section Dispatch.

Context (env : environment) (self : AzureLogicAppTool).
Context (logic_app_name : string) (payload : gmap string string).

Lemma run_invoke_unregistered :
  callback_urls self !! logic_app_name = None →
  run env (invoke_logic_app logic_app_name payload) self
  = Ran (Returned [("result", simulated_message logic_app_name)]) self
        (Printed <$> simulation_lines payload).
Proof.
  intros Hnone. unfold run, invoke_logic_app.
  unfold mbind, py_mbind, py_bind, get_self. simpl io_bind.
  rewrite Hnone. reflexivity.
Qed.

Lemma run_invoke_registered (url : option string) :
  callback_urls self !! logic_app_name = Some url →
  run env (invoke_logic_app logic_app_name payload) self
  = match post_answer env url payload 30 with
    | Returned response =>
        if requests.ok response
        then Ran (Returned [("result", invoked_message logic_app_name)]) self
               [ Posted url payload 30;
                 Printed ("✅ Successfully invoked Logic App: " +:+ logic_app_name) ]
        else Ran (Returned [("error", status_error_message logic_app_name response)]) self
               [ Posted url payload 30;
                 Printed ("⚠️ Error invoking Logic App: " +:+ logic_app_name +:+ " ("
                          +:+ str_of_int (requests.status_code response) +:+ ")") ]
    | Raised e =>
        Ran (Returned [("error", exception_message logic_app_name e)]) self
          [ Posted url payload 30;
            Printed ("⚠️ Exception invoking Logic App: " +:+ logic_app_name +:+ " - "
                     +:+ exn_str e) ]
    end.
Proof.
  intros Hsome. unfold run, invoke_logic_app.
  unfold mbind, py_mbind, py_bind, get_self. simpl io_bind.
  rewrite Hsome. unfold try_except, requests_post. simpl.
  destruct (post_answer env url payload 30) as [response|e]; simpl.
  - destruct (requests.ok response); reflexivity.
  - reflexivity.
Qed.

End Dispatch.

(** ** The runs of [register_logic_app] *)

Section Register.

Context (env : environment) (self : AzureLogicAppTool).
Context (logic_app_name trigger_name : string).

Lemma run_register :
  run env (register_logic_app logic_app_name trigger_name) self
  = match callback_answer env (resource_group self) logic_app_name trigger_name with
    | Returned callback =>
        match value callback with
        | Some url =>
            Ran (Returned tt) (with_callback_url self logic_app_name (Some url))
              [ Resolved (resource_group self) logic_app_name trigger_name;
                Printed ("✅ Registered Logic App: " +:+ logic_app_name) ]
        | None =>
            Ran (Returned tt) self
              (Resolved (resource_group self) logic_app_name trigger_name
               :: (Printed <$> warning_lines logic_app_name
                                 (no_callback_url_message logic_app_name)))
        end
    | Raised e =>
        Ran (Returned tt) self
          (Resolved (resource_group self) logic_app_name trigger_name
           :: (Printed <$> warning_lines logic_app_name (exn_str e)))
    end.
Proof.
  unfold run, register_logic_app, try_except.
  unfold mbind, py_mbind, py_bind, get_self, list_callback_url. simpl.
  destruct (callback_answer env (resource_group self) logic_app_name trigger_name)
    as [[[url|]]|e]; reflexivity.
Qed.

Lemma run_register_fails :
  resolver_fails (callback_answer env (resource_group self) logic_app_name trigger_name) →
  result (run env (register_logic_app logic_app_name trigger_name) self) = Returned tt
  ∧ after (run env (register_logic_app logic_app_name trigger_name) self) = self.
Proof.
  rewrite run_register.
  destruct (callback_answer env (resource_group self) logic_app_name trigger_name)
    as [[[url|]]|e]; simpl; intros Hfail; [discriminate | done | done].
Qed.

Lemma run_register_resolves (url : string) :
  callback_answer env (resource_group self) logic_app_name trigger_name
  = Returned {| value := Some url |} →
  result (run env (register_logic_app logic_app_name trigger_name) self) = Returned tt
  ∧ after (run env (register_logic_app logic_app_name trigger_name) self)
    = with_callback_url self logic_app_name (Some url).
Proof. rewrite run_register. by intros ->. Qed.

(** A registration never raises, whatever the resolver does. *)
Lemma run_register_returns :
  result (run env (register_logic_app logic_app_name trigger_name) self) = Returned tt.
Proof.
  rewrite run_register.
  by destruct (callback_answer env (resource_group self) logic_app_name trigger_name)
    as [[[url|]]|e].
Qed.

(** After a registration the table is the one before, or the one before
    with a string stored under the name. *)
Lemma run_register_table :
  after (run env (register_logic_app logic_app_name trigger_name) self) = self
  ∨ ∃ url : string,
      after (run env (register_logic_app logic_app_name trigger_name) self)
      = with_callback_url self logic_app_name (Some url).
Proof.
  rewrite run_register.
  destruct (callback_answer env (resource_group self) logic_app_name trigger_name)
    as [[[url|]]|e]; simpl; eauto.
Qed.

End Register.

(** ** The runs of the tool *)

Section Tool.

Context (env : environment) (self : AzureLogicAppTool).
Context (logic_app_name to subject body : string).

Lemma run_send_email :
  run env (send_email_via_logic_app logic_app_name to subject body) self
  = let d := run env (invoke_logic_app logic_app_name
                        {[ "to" := to; "subject" := subject; "body" := body ]})
               self in
    match result d with
    | Returned res =>
        Ran (Returned (json.dumps res)) (after d)
            (trace d ++ [Printed "📧 Email sent via Logic App:"])
    | Raised e => Ran (Raised e) (after d) (trace d)
    end.
Proof.
  unfold send_email_via_logic_app. rewrite run_bind.
  destruct (result (run env (invoke_logic_app logic_app_name _) self)) as [res|e];
    reflexivity.
Qed.

End Tool.

(** ** [Response.ok] in terms of the status code *)

Lemma ok_true_iff (r : requests.Response) :
  requests.ok r = true ↔ ¬ (400 ≤ requests.status_code r < 600)%Z.
Proof.
  unfold requests.ok, requests.raise_for_status_raises.
  rewrite negb_true_iff, orb_false_iff, !andb_false_iff, !Z.leb_gt, !Z.ltb_ge. lia.
Qed.

Lemma ok_false_iff (r : requests.Response) :
  requests.ok r = false ↔ (400 ≤ requests.status_code r < 600)%Z.
Proof.
  rewrite <-not_true_iff_false, ok_true_iff.
  destruct (decide (400 ≤ requests.status_code r < 600)%Z); tauto.
Qed.

(** ** Dispatch *)

(** C1. A dispatch for a name that is not in [callback_urls] returns a
    Success whose message says the email was simulated, prints the
    recipient, subject and body of the payload, and makes no remote call:
    its trace holds the four printed lines and nothing else, so no POST. *)
Theorem unregistered_dispatch_is_simulated (env : environment)
    (self : AzureLogicAppTool) (logic_app_name : string) (payload : gmap string string) :
  callback_urls self !! logic_app_name = None →
  Success ("Successfully " +:+ "simulated" +:+ " email via " +:+ logic_app_name +:+ ".")
    (result (run env (invoke_logic_app logic_app_name payload) self))
  ∧ trace (run env (invoke_logic_app logic_app_name payload) self)
    = [ Printed "📧 SIMULATED EMAIL:";
        Printed ("   To: " +:+ dict_get payload "to" "unknown");
        Printed ("   Subject: " +:+ dict_get payload "subject" "unknown");
        Printed ("   Body: " +:+ dict_get payload "body" "unknown") ]
  ∧ posts (trace (run env (invoke_logic_app logic_app_name payload) self)) = [].
Proof.
  intros Hnone. rewrite (run_invoke_unregistered _ _ _ _ Hnone). by split_and!.
Qed.

Lemma unregistered_dispatch_is_simulated_witness :
  callback_urls Examples.fresh !! "sales-alert" = None
  ∧ Success "Successfully simulated email via sales-alert."
      (result (run (Examples.unreachable "no route to host")
                 (invoke_logic_app "sales-alert" Examples.quarter) Examples.fresh))
  ∧ printed (trace (run (Examples.unreachable "no route to host")
                      (invoke_logic_app "sales-alert" Examples.quarter) Examples.fresh))
    = [ "📧 SIMULATED EMAIL:"; "   To: a@b.com"; "   Subject: Q3"; "   Body: Great quarter" ].
Proof.
  split; [reflexivity|].
  destruct (unregistered_dispatch_is_simulated (Examples.unreachable "no route to host")
              Examples.fresh "sales-alert" Examples.quarter eq_refl) as (Hres & Htrace & _).
  split; [exact Hres|]. rewrite Htrace. reflexivity.
Defined.

(** C2, as amended.  For a name in [callback_urls] and a POST that is
    answered, the dispatch returns a Success exactly when the status is not
    one of 400 to 599 (this is [Response.ok]); every status from 200 to 299 is
    such a status; and on a status from 400 to 599 the dispatch returns a
    Failure whose message carries the status code and the body of the
    response. *)
Theorem answered_dispatch_follows_ok (env : environment) (self : AzureLogicAppTool)
    (logic_app_name : string) (payload : gmap string string) (url : option string)
    (response : requests.Response) :
  callback_urls self !! logic_app_name = Some url →
  post_answer env url payload 30 = Returned response →
  ((∃ message, Success message
                 (result (run env (invoke_logic_app logic_app_name payload) self)))
   ↔ ¬ (400 ≤ requests.status_code response < 600)%Z)
  ∧ ((200 ≤ requests.status_code response < 300)%Z →
     Success ("Successfully invoked " +:+ logic_app_name +:+ ".")
       (result (run env (invoke_logic_app logic_app_name payload) self)))
  ∧ ((400 ≤ requests.status_code response < 600)%Z →
     Failure ("Error invoking " +:+ logic_app_name +:+ " ("
              +:+ str_of_int (requests.status_code response) +:+ "): "
              +:+ requests.text response)
       (result (run env (invoke_logic_app logic_app_name payload) self))).
Proof.
  intros Hurl Hpost. rewrite (run_invoke_registered _ _ _ _ _ Hurl), Hpost.
  destruct (requests.ok response) eqn:Hok; simpl.
  - apply ok_true_iff in Hok. split_and!.
    + split; [done|]. intros _. by eexists.
    + done.
    + intros Hrange. by destruct Hok.
  - apply ok_false_iff in Hok. split_and!.
    + split; [|done]. intros [message Hm]. discriminate Hm.
    + lia.
    + done.
Qed.

Lemma answered_dispatch_follows_ok_witness :
  callback_urls Examples.registered !! "sales-alert" = Some (Some Examples.hook)
  ∧ Failure "Error invoking sales-alert (500): Internal Server Error"
      (result (run (Examples.answering 500 "Internal Server Error" None)
                 (invoke_logic_app "sales-alert" Examples.quarter) Examples.registered)).
Proof.
  split; [reflexivity|].
  refine (proj2 (proj2 (answered_dispatch_follows_ok
            (Examples.answering 500 "Internal Server Error" None) Examples.registered
            "sales-alert" Examples.quarter (Some Examples.hook)
            {| requests.status_code := 500; requests.text := "Internal Server Error" |}
            eq_refl eq_refl)) _).
  simpl. lia.
Defined.

(** C2, as stated, fails: a response with status 304 is [ok], so the
    dispatch returns a Success although 304 is not a 2xx status. *)
Lemma success_is_not_only_2xx :
  ¬ (∀ (env : environment) (self : AzureLogicAppTool) (logic_app_name : string)
       (payload : gmap string string) (url : option string)
       (response : requests.Response),
       callback_urls self !! logic_app_name = Some url →
       post_answer env url payload 30 = Returned response →
       ((∃ message, Success message
                      (result (run env (invoke_logic_app logic_app_name payload) self)))
        ↔ (200 ≤ requests.status_code response < 300)%Z)
       ∧ (¬ (200 ≤ requests.status_code response < 300)%Z →
          Failure ("Error invoking " +:+ logic_app_name +:+ " ("
                   +:+ str_of_int (requests.status_code response) +:+ "): "
                   +:+ requests.text response)
            (result (run env (invoke_logic_app logic_app_name payload) self)))).
Proof.
  intros Hclaim.
  destruct (Hclaim (Examples.answering 304 "" None) Examples.registered "sales-alert"
              Examples.quarter (Some Examples.hook)
              {| requests.status_code := 304; requests.text := "" |}
              eq_refl eq_refl) as [[Hsuccess _] _].
  assert (200 ≤ 304 < 300)%Z as Hrange; [|lia].
  apply Hsuccess. by exists "Successfully invoked sales-alert.".
Qed.

(** A dispatch returns a dictionary: it never raises. *)
Lemma dispatch_returns (env : environment) (self : AzureLogicAppTool)
    (logic_app_name : string) (payload : gmap string string) :
  ∃ d, result (run env (invoke_logic_app logic_app_name payload) self) = Returned d.
Proof.
  destruct (callback_urls self !! logic_app_name) as [url|] eqn:Hurl.
  - rewrite (run_invoke_registered _ _ _ _ _ Hurl).
    destruct (post_answer env url payload 30) as [response|e];
      [destruct (requests.ok response)|]; by eexists.
  - rewrite (run_invoke_unregistered _ _ _ _ Hurl). by eexists.
Qed.

(** A dispatch leaves the object as it found it. *)
Lemma dispatch_keeps_object (env : environment) (self : AzureLogicAppTool)
    (logic_app_name : string) (payload : gmap string string) :
  after (run env (invoke_logic_app logic_app_name payload) self) = self.
Proof.
  destruct (callback_urls self !! logic_app_name) as [url|] eqn:Hurl.
  - rewrite (run_invoke_registered _ _ _ _ _ Hurl).
    by destruct (post_answer env url payload 30) as [response|e];
      [destruct (requests.ok response)|].
  - by rewrite (run_invoke_unregistered _ _ _ _ Hurl).
Qed.

(** A dispatch for a registered name makes one POST, whatever the answer. *)
Lemma dispatch_posts_once (env : environment) (self : AzureLogicAppTool)
    (logic_app_name : string) (payload : gmap string string) (url : option string) :
  callback_urls self !! logic_app_name = Some url →
  posts (trace (run env (invoke_logic_app logic_app_name payload) self))
  = [(url, payload, 30%Z)].
Proof.
  intros Hurl. rewrite (run_invoke_registered _ _ _ _ _ Hurl).
  by destruct (post_answer env url payload 30) as [response|e];
    [destruct (requests.ok response)|].
Qed.

(** C3. For a name in [callback_urls], a POST that raises (timeout, DNS
    failure, connection reset) makes the dispatch return a Failure whose
    message carries [str(e)]; and whatever the remote end does, the dispatch
    returns a dictionary and raises nothing. *)
Theorem transport_error_is_a_failure (env : environment) (self : AzureLogicAppTool)
    (logic_app_name : string) (payload : gmap string string) (url : option string) :
  callback_urls self !! logic_app_name = Some url →
  (∀ e, post_answer env url payload 30 = Raised e →
        Failure ("Error invoking " +:+ logic_app_name +:+ ": " +:+ exn_str e)
          (result (run env (invoke_logic_app logic_app_name payload) self)))
  ∧ ∃ d, result (run env (invoke_logic_app logic_app_name payload) self) = Returned d.
Proof.
  intros Hurl. split; [|apply dispatch_returns].
  intros e He. by rewrite (run_invoke_registered _ _ _ _ _ Hurl), He.
Qed.

Lemma transport_error_is_a_failure_witness :
  callback_urls Examples.registered !! "sales-alert" = Some (Some Examples.hook)
  ∧ Failure "Error invoking sales-alert: Read timed out. (read timeout=30)"
      (result (run (Examples.unreachable "Read timed out. (read timeout=30)")
                 (invoke_logic_app "sales-alert" Examples.quarter) Examples.registered)).
Proof.
  split; [reflexivity|].
  exact (proj1 (transport_error_is_a_failure
                  (Examples.unreachable "Read timed out. (read timeout=30)")
                  Examples.registered "sales-alert" Examples.quarter
                  (Some Examples.hook) eq_refl)
           (Exception "ConnectionError" "Read timed out. (read timeout=30)") eq_refl).
Defined.

(** C5. A dispatch for a name in [callback_urls] makes exactly one POST,
    of the payload it was given, to the stored endpoint, with timeout 30,
    whatever the endpoint answers (no second attempt); when the answer is a
    response with status 200 the dispatch returns a Success. *)
Theorem registered_dispatch_posts_once (env : environment) (self : AzureLogicAppTool)
    (logic_app_name : string) (payload : gmap string string) (url : option string) :
  callback_urls self !! logic_app_name = Some url →
  posts (trace (run env (invoke_logic_app logic_app_name payload) self))
  = [(url, payload, 30%Z)]
  ∧ ∀ response,
      post_answer env url payload 30 = Returned response →
      requests.status_code response = 200%Z →
      Success ("Successfully invoked " +:+ logic_app_name +:+ ".")
        (result (run env (invoke_logic_app logic_app_name payload) self)).
Proof.
  intros Hurl. split; [by apply dispatch_posts_once|].
  intros response Hpost Hstatus.
  rewrite (run_invoke_registered _ _ _ _ _ Hurl), Hpost.
  assert (requests.ok response = true) as ->; [|done].
  apply ok_true_iff. lia.
Qed.

Lemma registered_dispatch_posts_once_witness :
  callback_urls Examples.registered !! "sales-alert" = Some (Some Examples.hook)
  ∧ posts (trace (run (Examples.answering 200 "" None)
                    (invoke_logic_app "sales-alert" Examples.quarter)
                    Examples.registered))
    = [(Some Examples.hook, Examples.quarter, 30%Z)]
  ∧ Success "Successfully invoked sales-alert."
      (result (run (Examples.answering 200 "" None)
                 (invoke_logic_app "sales-alert" Examples.quarter)
                 Examples.registered)).
Proof.
  split; [reflexivity|].
  destruct (registered_dispatch_posts_once (Examples.answering 200 "" None)
              Examples.registered "sales-alert" Examples.quarter
              (Some Examples.hook) eq_refl) as [Hposts Hsuccess].
  split; [exact Hposts|].
  exact (Hsuccess {| requests.status_code := 200; requests.text := "" |} eq_refl eq_refl).
Defined.

(** C10. In the simulation branch every payload will do: the dispatch
    returns a Success, and for each of the keys [to], [subject] and [body]
    the line it prints holds the value under the key, or [unknown] when the
    payload has no such key. *)
Theorem simulation_defaults_to_unknown (env : environment) (self : AzureLogicAppTool)
    (logic_app_name : string) (payload : gmap string string) :
  callback_urls self !! logic_app_name = None →
  (∃ message, Success message
                (result (run env (invoke_logic_app logic_app_name payload) self)))
  ∧ ∀ key label,
      (key, label) ∈ [("to", "   To: "); ("subject", "   Subject: ");
                      ("body", "   Body: ")] →
      label +:+ default "unknown" (payload !! key)
      ∈ printed (trace (run env (invoke_logic_app logic_app_name payload) self)).
Proof.
  intros Hnone. rewrite (run_invoke_unregistered _ _ _ _ Hnone). split; [by eexists|].
  intros key label Hin. simpl. unfold dict_get.
  repeat (apply elem_of_cons in Hin as [[= -> ->]|Hin]);
    [| | |by apply elem_of_nil in Hin].
  - destruct (payload !! "to"); set_solver.
  - destruct (payload !! "subject"); set_solver.
  - destruct (payload !! "body"); set_solver.
Qed.

Lemma simulation_defaults_to_unknown_witness :
  callback_urls Examples.fresh !! "sales-alert" = None
  ∧ "   Subject: unknown"
    ∈ printed (trace (run (Examples.unreachable "no route to host")
                        (invoke_logic_app "sales-alert" {[ "to" := "a@b.com" ]})
                        Examples.fresh)).
Proof.
  split; [reflexivity|].
  exact (proj2 (simulation_defaults_to_unknown (Examples.unreachable "no route to host")
                  Examples.fresh "sales-alert" {[ "to" := "a@b.com" ]} eq_refl)
           "subject" "   Subject: " ltac:(by repeat constructor)).
Defined.

(** ** The tool *)

(** The tool leaves the object as it found it. *)
Lemma tool_keeps_object (env : environment) (self : AzureLogicAppTool)
    (logic_app_name to subject body : string) :
  after (run env (create_send_email_function logic_app_name to subject body) self) = self.
Proof.
  unfold create_send_email_function. rewrite run_send_email. cbv zeta.
  destruct (dispatch_returns env self logic_app_name
              {[ "to" := to; "subject" := subject; "body" := body ]}) as [d Hd].
  rewrite Hd. apply dispatch_keeps_object.
Qed.

(** The dictionary a dispatch returns has one item, under [result] or under
    [error]. *)
Lemma dispatch_returns_one_item (env : environment) (self : AzureLogicAppTool)
    (logic_app_name : string) (payload : gmap string string) :
  ∃ key message,
    (key = "result" ∨ key = "error")
    ∧ result (run env (invoke_logic_app logic_app_name payload) self)
      = Returned [(key, message)].
Proof.
  destruct (callback_urls self !! logic_app_name) as [url|] eqn:Hurl.
  - rewrite (run_invoke_registered _ _ _ _ _ Hurl).
    destruct (post_answer env url payload 30) as [response|e];
      [destruct (requests.ok response)|]; eauto.
  - rewrite (run_invoke_unregistered _ _ _ _ Hurl). eauto.
Qed.

(** [json.dumps] of such a dictionary is a JSON object with one member. *)
Lemma dumps_one_item (key message : string) :
  key = "result" ∨ key = "error" →
  json.dumps [(key, message)]
  = "{" +:+ json.quote +:+ key +:+ json.quote +:+ ": "
    +:+ json.encode_basestring_ascii message +:+ "}".
Proof. by intros [-> | ->]. Qed.

(** C7. The callable made by [create_send_email_function] for a name
    builds the payload with [to], [subject] and [body] under the keys of
    those names and no other key, dispatches it under the bound name against
    the same object, and returns [json.dumps] of the dictionary the dispatch
    returned, a JSON object with the one member [result] or [error]; its
    trace is the trace of that dispatch followed by one printed line. *)
Theorem tool_serializes_dispatch (env : environment) (self : AzureLogicAppTool)
    (logic_app_name to subject body : string) :
  ∃ (payload : gmap string string) (key message : string),
    (payload !! "to" = Some to ∧ payload !! "subject" = Some subject
     ∧ payload !! "body" = Some body ∧ dom payload = {[ "to"; "subject"; "body" ]})
    ∧ result (run env (invoke_logic_app logic_app_name payload) self)
      = Returned [(key, message)]
    ∧ result (run env (create_send_email_function logic_app_name to subject body) self)
      = Returned (json.dumps [(key, message)])
    ∧ json.dumps [(key, message)]
      = "{" +:+ json.quote +:+ key +:+ json.quote +:+ ": "
        +:+ json.encode_basestring_ascii message +:+ "}"
    ∧ trace (run env (create_send_email_function logic_app_name to subject body) self)
      = trace (run env (invoke_logic_app logic_app_name payload) self)
        ++ [Printed "📧 Email sent via Logic App:"].
Proof.
  exists {[ "to" := to; "subject" := subject; "body" := body ]}.
  destruct (dispatch_returns_one_item env self logic_app_name
              {[ "to" := to; "subject" := subject; "body" := body ]})
    as (key & message & Hkey & Hd).
  exists key, message. split_and!; try done.
  - unfold create_send_email_function. rewrite run_send_email. cbv zeta. by rewrite Hd.
  - by apply dumps_one_item.
  - unfold create_send_email_function. rewrite run_send_email. cbv zeta. by rewrite Hd.
Qed.

(** ** The table of callback URLs *)

(** C8. A dispatch and a call of the tool leave [callback_urls] as it
    was: the same names with the same endpoints, whichever branch is taken
    and whatever the remote end answers. *)
Theorem dispatch_and_tool_keep_registry (env : environment) (self : AzureLogicAppTool)
    (logic_app_name : string) (payload : gmap string string) (to subject body : string) :
  callback_urls (after (run env (invoke_logic_app logic_app_name payload) self))
  = callback_urls self
  ∧ callback_urls
      (after (run env (create_send_email_function logic_app_name to subject body) self))
    = callback_urls self.
Proof. by rewrite dispatch_keeps_object, tool_keeps_object. Qed.

(** C4. When the resolver fails, a registration raises nothing and
    leaves the object, so the table, as it was; a name that was not
    registered before is still dispatched by simulation, with no POST. *)
Theorem failed_registration_changes_nothing (env : environment)
    (self : AzureLogicAppTool) (logic_app_name trigger_name : string) :
  resolver_fails (callback_answer env (resource_group self) logic_app_name trigger_name) →
  result (run env (register_logic_app logic_app_name trigger_name) self) = Returned tt
  ∧ callback_urls (after (run env (register_logic_app logic_app_name trigger_name) self))
    = callback_urls self
  ∧ (callback_urls self !! logic_app_name = None →
     ∀ (env' : environment) (payload : gmap string string),
       Success ("Successfully simulated email via " +:+ logic_app_name +:+ ".")
         (result (run env' (invoke_logic_app logic_app_name payload)
                    (after (run env (register_logic_app logic_app_name trigger_name) self))))
       ∧ posts (trace (run env' (invoke_logic_app logic_app_name payload)
                         (after (run env (register_logic_app logic_app_name trigger_name)
                                   self))))
         = []).
Proof.
  intros Hfails. destruct (run_register_fails _ _ _ _ Hfails) as [Hres Hafter].
  rewrite Hafter. split_and!; [done..|].
  intros Hnone env' payload. by rewrite (run_invoke_unregistered _ _ _ _ Hnone).
Qed.

Lemma failed_registration_changes_nothing_witness :
  resolver_fails (callback_answer (Examples.answering 200 "" None)
                    (resource_group Examples.fresh) "sales-alert" "manual")
  ∧ result (run (Examples.answering 200 "" None)
              (register_logic_app "sales-alert" "manual") Examples.fresh)
    = Returned tt
  ∧ callback_urls (after (run (Examples.answering 200 "" None)
                            (register_logic_app "sales-alert" "manual") Examples.fresh))
    = ∅.
Proof.
  split; [reflexivity|].
  destruct (failed_registration_changes_nothing (Examples.answering 200 "" None)
              Examples.fresh "sales-alert" "manual" eq_refl) as (Hres & Htable & _).
  split; [exact Hres | exact Htable].
Defined.

(** C6. Two registrations of one name that both resolve leave the table
    of the start with the second endpoint under the name: the second call
    adds no entry to what the first left, the name maps to the second
    endpoint, the other names are as before, and a dispatch for the name
    POSTs to the second endpoint. *)
Theorem reregistration_last_write_wins (env1 env2 : environment)
    (self : AzureLogicAppTool) (logic_app_name trigger1 trigger2 url1 url2 : string) :
  callback_answer env1 (resource_group self) logic_app_name trigger1
  = Returned {| value := Some url1 |} →
  callback_answer env2 (resource_group self) logic_app_name trigger2
  = Returned {| value := Some url2 |} →
  let once := after (run env1 (register_logic_app logic_app_name trigger1) self) in
  let twice := after (run env2 (register_logic_app logic_app_name trigger2) once) in
  callback_urls twice = <[logic_app_name := Some url2]> (callback_urls self)
  ∧ callback_urls twice !! logic_app_name = Some (Some url2)
  ∧ size (callback_urls twice) = size (callback_urls once)
  ∧ dom (callback_urls twice) = {[ logic_app_name ]} ∪ dom (callback_urls self)
  ∧ ∀ (env3 : environment) (payload : gmap string string),
      posts (trace (run env3 (invoke_logic_app logic_app_name payload) twice))
      = [(Some url2, payload, 30%Z)].
Proof.
  intros Hfirst Hsecond once twice.
  destruct (run_register_resolves env1 self logic_app_name trigger1 url1 Hfirst)
    as [_ Honce].
  assert (resource_group once = resource_group self) as Hgroup
    by (unfold once; by rewrite Honce).
  destruct (run_register_resolves env2 once logic_app_name trigger2 url2) as [_ Htwice];
    [by rewrite Hgroup|].
  fold twice in Htwice. fold once in Honce.
  assert (callback_urls twice = <[logic_app_name := Some url2]> (callback_urls self))
    as Htable.
  { rewrite Htwice, Honce. simpl. apply insert_insert_eq. }
  assert (callback_urls twice !! logic_app_name = Some (Some url2)) as Hlookup.
  { rewrite Htable. apply lookup_insert_eq. }
  split_and!; [done..| | |].
  - rewrite Htwice, Honce. simpl.
    apply map_size_insert_Some. rewrite lookup_insert_eq. by eexists.
  - rewrite Htable. apply dom_insert_L.
  - intros env3 payload. by apply dispatch_posts_once.
Qed.

Lemma reregistration_last_write_wins_witness :
  callback_answer (Examples.answering 200 "" (Some "https://example.org/old"))
    (resource_group Examples.fresh) "sales-alert" "manual"
  = Returned {| value := Some "https://example.org/old" |}
  ∧ callback_urls
      (after (run (Examples.answering 200 "" (Some Examples.hook))
                (register_logic_app "sales-alert" "manual")
                (after (run (Examples.answering 200 "" (Some "https://example.org/old"))
                          (register_logic_app "sales-alert" "manual") Examples.fresh))))
    !! "sales-alert"
    = Some (Some Examples.hook).
Proof.
  split; [reflexivity|].
  exact (proj1 (proj2 (reregistration_last_write_wins
                         (Examples.answering 200 "" (Some "https://example.org/old"))
                         (Examples.answering 200 "" (Some Examples.hook))
                         Examples.fresh "sales-alert" "manual" "manual"
                         "https://example.org/old" Examples.hook eq_refl eq_refl))).
Defined.

(** ** The invariant of the table *)

Lemma perform_keeps_no_null_endpoint (env : environment) (op : operation)
    (self : AzureLogicAppTool) :
  no_null_endpoint self → no_null_endpoint (perform env op self).
Proof.
  intros Hinv. destruct op as [name trigger|name payload|name to subject body]; cbn [perform].
  - destruct (run_register_table env self name trigger) as [->|[url ->]]; [done|].
    unfold no_null_endpoint. simpl. by apply map_Forall_insert_2.
  - by rewrite dispatch_keeps_object.
  - by rewrite tool_keeps_object.
Qed.

(** C9. The table never maps a name to [None]: the constructor makes it
    empty; a resolver answer whose callback value is [None] is a failed
    registration, which raises nothing and adds no entry; every operation
    keeps the invariant, so every object a program can hold has it. *)
Theorem registry_holds_no_null_endpoint :
  (∀ subscription_id resource_group,
     callback_urls (__init__ subscription_id resource_group) = ∅)
  ∧ (∀ env self logic_app_name trigger_name,
       callback_answer env (resource_group self) logic_app_name trigger_name
       = Returned {| value := None |} →
       result (run env (register_logic_app logic_app_name trigger_name) self)
       = Returned tt
       ∧ callback_urls
           (after (run env (register_logic_app logic_app_name trigger_name) self))
         = callback_urls self)
  ∧ (∀ env op self, no_null_endpoint self → no_null_endpoint (perform env op self))
  ∧ (∀ self, reachable self → no_null_endpoint self).
Proof.
  split_and!.
  - done.
  - intros env self name trigger Hnull.
    destruct (run_register_fails env self name trigger) as [Hres Hafter];
      [by rewrite Hnull|]. by rewrite Hafter.
  - apply perform_keeps_no_null_endpoint.
  - intros self Hreach. induction Hreach as [sub rg|env op self _ IH].
    + apply map_Forall_empty.
    + by apply perform_keeps_no_null_endpoint.
Qed.

Lemma registry_holds_no_null_endpoint_witness :
  reachable (perform (Examples.answering 200 "" None) (Register "sales-alert" "manual")
               (perform (Examples.answering 200 "" (Some Examples.hook))
                  (Register "sales-alert" "manual") Examples.fresh))
  ∧ no_null_endpoint
      (perform (Examples.answering 200 "" None) (Register "sales-alert" "manual")
         (perform (Examples.answering 200 "" (Some Examples.hook))
            (Register "sales-alert" "manual") Examples.fresh)).
Proof.
  assert (reachable
            (perform (Examples.answering 200 "" None) (Register "sales-alert" "manual")
               (perform (Examples.answering 200 "" (Some Examples.hook))
                  (Register "sales-alert" "manual") Examples.fresh))) as Hreach.
  { apply reachable_step, reachable_step, reachable_init. }
  split; [exact Hreach|].
  exact (proj2 (proj2 (proj2 registry_holds_no_null_endpoint)) _ Hreach).
Defined.

(** ** Worked examples *)

(** The scenario of the specification: the name resolves to the hook, the
    dispatch POSTs the payload there, and a 202 answer is a Success. *)
Example sales_alert_scenario :
  let env := Examples.answering 202 "" (Some Examples.hook) in
  let service := after (run env (register_logic_app "sales-alert" "manual") Examples.fresh) in
  let sent := run env (invoke_logic_app "sales-alert" Examples.quarter) service in
  service = Examples.registered
  ∧ posts (trace sent) = [(Some Examples.hook, Examples.quarter, 30%Z)]
  ∧ result sent = Returned [("result", "Successfully invoked sales-alert.")].
Proof. by split_and!. Qed.

(** The string the tool hands back when nothing is registered. *)
Example tool_on_fresh_object :
  result (run (Examples.unreachable "no route to host")
            (create_send_email_function "sales-alert" "a@b.com" "Q3" "Great quarter")
            Examples.fresh)
  = Returned ("{" +:+ json.quote +:+ "result" +:+ json.quote +:+ ": " +:+ json.quote
              +:+ "Successfully simulated email via sales-alert." +:+ json.quote +:+ "}").
Proof. reflexivity. Qed.

(** A status of 500 with a body that needs escaping. *)
Example tool_on_server_error :
  result (run (Examples.answering 500 ("bad " +:+ json.quote +:+ "gateway" +:+ json.quote) None)
            (create_send_email_function "sales-alert" "a@b.com" "Q3" "Great quarter")
            Examples.registered)
  = Returned ("{" +:+ json.quote +:+ "error" +:+ json.quote +:+ ": " +:+ json.quote
              +:+ "Error invoking sales-alert (500): bad "
              +:+ String json.backslash json.quote +:+ "gateway"
              +:+ String json.backslash json.quote +:+ json.quote +:+ "}").
Proof. reflexivity. Qed.

(** Characters outside printable ASCII leave as [u] escapes, above the basic
    plane as a surrogate pair. *)
Example dumps_escapes_non_ascii :
  json.dumps [("result", "📧 é")]
  = "{" +:+ json.quote +:+ "result" +:+ json.quote +:+ ": " +:+ json.quote
    +:+ String json.backslash "ud83d" +:+ String json.backslash "udce7 "
    +:+ String json.backslash "u00e9" +:+ json.quote +:+ "}".
Proof. reflexivity. Qed.

(** * More of the class *)

(** ** What a registration touches *)

(** X1. A registration changes nothing but the entry of the name it
    registers: whatever the resolver does, every other name keeps the
    endpoint it had (or stays absent), and [subscription_id] and
    [resource_group] keep their values. *)
Theorem registration_touches_one_name (env : environment) (self : AzureLogicAppTool)
    (logic_app_name trigger_name other : string) :
  other ≠ logic_app_name →
  callback_urls (after (run env (register_logic_app logic_app_name trigger_name) self))
    !! other
  = callback_urls self !! other
  ∧ subscription_id (after (run env (register_logic_app logic_app_name trigger_name) self))
    = subscription_id self
  ∧ resource_group (after (run env (register_logic_app logic_app_name trigger_name) self))
    = resource_group self.
Proof.
  intros Hother.
  destruct (run_register_table env self logic_app_name trigger_name) as [->|[url ->]];
    [done|].
  simpl. by rewrite lookup_insert_ne.
Qed.

Lemma registration_touches_one_name_witness :
  "sales-alert" ≠ "billing"
  ∧ callback_urls
      (after (run (Examples.answering 200 "" (Some "https://example.org/billing"))
                (register_logic_app "billing" "manual") Examples.registered))
    !! "sales-alert"
    = Some (Some Examples.hook).
Proof.
  split; [discriminate|].
  exact (proj1 (registration_touches_one_name
                  (Examples.answering 200 "" (Some "https://example.org/billing"))
                  Examples.registered "billing" "manual" "sales-alert"
                  ltac:(discriminate))).
Defined.

(** X2. A registration asks the management client once, for the trigger
    of the workflow in the resource group of the object, and never POSTs; a
    dispatch and a call of the tool never ask the management client. *)
Theorem remote_calls_by_method (env : environment) (self : AzureLogicAppTool)
    (logic_app_name trigger_name : string) (payload : gmap string string)
    (to subject body : string) :
  resolutions (trace (run env (register_logic_app logic_app_name trigger_name) self))
  = [(resource_group self, logic_app_name, trigger_name)]
  ∧ posts (trace (run env (register_logic_app logic_app_name trigger_name) self)) = []
  ∧ resolutions (trace (run env (invoke_logic_app logic_app_name payload) self)) = []
  ∧ resolutions
      (trace (run env (create_send_email_function logic_app_name to subject body) self))
    = [].
Proof.
  assert (∀ payload', resolutions
            (trace (run env (invoke_logic_app logic_app_name payload') self)) = [])
    as Hdispatch.
  { intros payload'.
    destruct (callback_urls self !! logic_app_name) as [url|] eqn:Hurl.
    - rewrite (run_invoke_registered _ _ _ _ _ Hurl).
      by destruct (post_answer env url payload' 30) as [response|e];
        [destruct (requests.ok response)|].
    - by rewrite (run_invoke_unregistered _ _ _ _ Hurl). }
  split_and!.
  - rewrite run_register.
    by destruct (callback_answer env (resource_group self) logic_app_name trigger_name)
      as [[[url|]]|e].
  - rewrite run_register.
    by destruct (callback_answer env (resource_group self) logic_app_name trigger_name)
      as [[[url|]]|e].
  - apply Hdispatch.
  - unfold create_send_email_function. rewrite run_send_email. cbv zeta.
    destruct (dispatch_returns env self logic_app_name
                {[ "to" := to; "subject" := subject; "body" := body ]}) as [d Hd].
    rewrite Hd. cbn [trace]. unfold resolutions. rewrite omap_app.
    fold (resolutions (trace (run env (invoke_logic_app logic_app_name
            {[ "to" := to; "subject" := subject; "body" := body ]}) self))).
    by rewrite Hdispatch.
Qed.

(** X3. What a registration prints tells how it went: the line of
    success exactly when the resolver returned a callback URL; otherwise the
    warning with the description of the failure, which is [str(e)] of the
    exception the client raised or, for an answer without a URL, the message
    of the [ValueError] raised in the method, and then the hint. *)
Theorem registration_prints_its_outcome (env : environment) (self : AzureLogicAppTool)
    (logic_app_name trigger_name : string) :
  printed (trace (run env (register_logic_app logic_app_name trigger_name) self))
  = match callback_answer env (resource_group self) logic_app_name trigger_name with
    | Returned {| value := Some url |} =>
        [ "✅ Registered Logic App: " +:+ logic_app_name ]
    | Returned {| value := None |} =>
        [ "⚠️ Warning: Could not register Logic App '" +:+ logic_app_name +:+ "': "
          +:+ "No callback URL returned for Logic App '" +:+ logic_app_name +:+ "'.";
          "💡 This is expected if the Logic App doesn't exist - emails will be simulated" ]
    | Raised e =>
        [ "⚠️ Warning: Could not register Logic App '" +:+ logic_app_name +:+ "': "
          +:+ exn_str e;
          "💡 This is expected if the Logic App doesn't exist - emails will be simulated" ]
    end.
Proof.
  rewrite run_register.
  by destruct (callback_answer env (resource_group self) logic_app_name trigger_name)
    as [[[url|]]|e].
Qed.

(** ** Registration and dispatch together *)

(** A dispatch looks at the object only through the entry of its name. *)
Lemma dispatch_reads_one_entry (env : environment) (self self' : AzureLogicAppTool)
    (logic_app_name : string) (payload : gmap string string) :
  callback_urls self' !! logic_app_name = callback_urls self !! logic_app_name →
  result (run env (invoke_logic_app logic_app_name payload) self')
  = result (run env (invoke_logic_app logic_app_name payload) self)
  ∧ trace (run env (invoke_logic_app logic_app_name payload) self')
    = trace (run env (invoke_logic_app logic_app_name payload) self).
Proof.
  intros Hsame.
  destruct (callback_urls self !! logic_app_name) as [url|] eqn:Hurl.
  - rewrite (run_invoke_registered _ self' _ _ _ Hsame),
      (run_invoke_registered _ self _ _ _ Hurl).
    by destruct (post_answer env url payload 30) as [response|e];
      [destruct (requests.ok response)|].
  - by rewrite (run_invoke_unregistered _ self' _ _ Hsame),
      (run_invoke_unregistered _ self _ _ Hurl).
Qed.

(** X4. Once a registration has resolved, a dispatch for the name is no
    longer simulated: it POSTs the payload to the URL the resolver returned,
    and its result is not the simulated Success, whatever the endpoint
    answers. *)
Theorem resolved_name_is_dispatched (env env' : environment) (self : AzureLogicAppTool)
    (logic_app_name trigger_name url : string) (payload : gmap string string) :
  callback_answer env (resource_group self) logic_app_name trigger_name
  = Returned {| value := Some url |} →
  posts (trace (run env' (invoke_logic_app logic_app_name payload)
                  (after (run env (register_logic_app logic_app_name trigger_name) self))))
  = [(Some url, payload, 30%Z)]
  ∧ ¬ Success ("Successfully simulated email via " +:+ logic_app_name +:+ ".")
        (result (run env' (invoke_logic_app logic_app_name payload)
                   (after (run env (register_logic_app logic_app_name trigger_name)
                             self)))).
Proof.
  intros Hresolved.
  destruct (run_register_resolves env self logic_app_name trigger_name url Hresolved)
    as [_ ->].
  assert (callback_urls (with_callback_url self logic_app_name (Some url))
            !! logic_app_name = Some (Some url)) as Hurl by apply lookup_insert_eq.
  split; [by apply dispatch_posts_once|].
  rewrite (run_invoke_registered _ _ _ _ _ Hurl). unfold Success.
  destruct (post_answer env' (Some url) payload 30) as [response|e];
    [destruct (requests.ok response)|]; simpl; intros Heq; discriminate Heq.
Qed.

Lemma resolved_name_is_dispatched_witness :
  callback_answer (Examples.answering 202 "" (Some Examples.hook))
    (resource_group Examples.fresh) "sales-alert" "manual"
  = Returned {| value := Some Examples.hook |}
  ∧ posts (trace (run (Examples.unreachable "connection reset")
                    (invoke_logic_app "sales-alert" Examples.quarter)
                    (after (run (Examples.answering 202 "" (Some Examples.hook))
                              (register_logic_app "sales-alert" "manual")
                              Examples.fresh))))
    = [(Some Examples.hook, Examples.quarter, 30%Z)].
Proof.
  split; [reflexivity|].
  exact (proj1 (resolved_name_is_dispatched
                  (Examples.answering 202 "" (Some Examples.hook))
                  (Examples.unreachable "connection reset")
                  Examples.fresh "sales-alert" "manual" Examples.hook
                  Examples.quarter eq_refl)).
Defined.

(** X5. Registering one name does not change how another name is
    dispatched: after the registration, whatever its outcome, a dispatch for
    a different name returns the same result and leaves the same trace as it
    would have before. *)
Theorem registration_keeps_other_dispatches (env env' : environment)
    (self : AzureLogicAppTool) (logic_app_name trigger_name other : string)
    (payload : gmap string string) :
  other ≠ logic_app_name →
  result (run env' (invoke_logic_app other payload)
            (after (run env (register_logic_app logic_app_name trigger_name) self)))
  = result (run env' (invoke_logic_app other payload) self)
  ∧ trace (run env' (invoke_logic_app other payload)
             (after (run env (register_logic_app logic_app_name trigger_name) self)))
    = trace (run env' (invoke_logic_app other payload) self).
Proof.
  intros Hother. apply dispatch_reads_one_entry.
  destruct (run_register_table env self logic_app_name trigger_name) as [->|[url ->]];
    [done|].
  simpl. by rewrite lookup_insert_ne.
Qed.

Lemma registration_keeps_other_dispatches_witness :
  "billing" ≠ "sales-alert"
  ∧ result (run (Examples.answering 200 "" None)
              (invoke_logic_app "billing" Examples.quarter)
              (after (run (Examples.answering 200 "" (Some Examples.hook))
                        (register_logic_app "sales-alert" "manual") Examples.fresh)))
    = result (run (Examples.answering 200 "" None)
                (invoke_logic_app "billing" Examples.quarter) Examples.fresh).
Proof.
  split; [discriminate|].
  exact (proj1 (registration_keeps_other_dispatches
                  (Examples.answering 200 "" (Some Examples.hook))
                  (Examples.answering 200 "" None)
                  Examples.fresh "sales-alert" "manual" "billing" Examples.quarter
                  ltac:(discriminate))).
Defined.

(** X6. A dispatch returns a Failure only after a POST went wrong: exactly
    when the name is in the table and the POST to its endpoint raised or was
    answered with a status from 400 to 599.  A name that is not registered
    never gives a Failure. *)
Theorem dispatch_fails_only_after_a_post (env : environment) (self : AzureLogicAppTool)
    (logic_app_name : string) (payload : gmap string string) :
  (∃ message, Failure message
                (result (run env (invoke_logic_app logic_app_name payload) self)))
  ↔ ∃ url, callback_urls self !! logic_app_name = Some url
           ∧ match post_answer env url payload 30 with
             | Returned response => (400 ≤ requests.status_code response < 600)%Z
             | Raised _ => True
             end.
Proof.
  unfold Failure.
  destruct (callback_urls self !! logic_app_name) as [url|] eqn:Hurl.
  - rewrite (run_invoke_registered _ _ _ _ _ Hurl). split.
    + intros [message Hm]. exists url. split; [done|].
      destruct (post_answer env url payload 30) as [response|e]; [|done].
      destruct (requests.ok response) eqn:Hok; [discriminate Hm|].
      by apply ok_false_iff.
    + intros (url' & [= <-] & Hpost).
      destruct (post_answer env url payload 30) as [response|e]; [|by eexists].
      apply ok_false_iff in Hpost. rewrite Hpost. by eexists.
  - rewrite (run_invoke_unregistered _ _ _ _ Hurl). split.
    + intros [message Hm]. discriminate Hm.
    + by intros (url' & [=] & _).
Qed.

Lemma dispatch_fails_only_after_a_post_witness :
  (∃ url, callback_urls Examples.registered !! "sales-alert" = Some url
          ∧ match post_answer (Examples.unreachable "connection reset") url
                    Examples.quarter 30 with
            | Returned response => (400 ≤ requests.status_code response < 600)%Z
            | Raised _ => True
            end)
  ∧ ∃ message, Failure message
                 (result (run (Examples.unreachable "connection reset")
                            (invoke_logic_app "sales-alert" Examples.quarter)
                            Examples.registered)).
Proof.
  assert (∃ url, callback_urls Examples.registered !! "sales-alert" = Some url
                 ∧ match post_answer (Examples.unreachable "connection reset") url
                           Examples.quarter 30 with
                   | Returned response => (400 ≤ requests.status_code response < 600)%Z
                   | Raised _ => True
                   end) as Hpost.
  { exists (Some Examples.hook). split; [reflexivity|exact I]. }
  split; [exact Hpost|].
  exact (proj2 (dispatch_fails_only_after_a_post (Examples.unreachable "connection reset")
                  Examples.registered "sales-alert" Examples.quarter) Hpost).
Defined.


(** ** More of the tool *)

(** X7. When the bound name is not registered, the tool prints the
    simulated email with its three arguments themselves: the payload it
    builds has all three keys, so the default [unknown] never shows.  It then
    prints the line that says the email was sent, and makes no POST. *)
Theorem tool_simulation_shows_arguments (env : environment) (self : AzureLogicAppTool)
    (logic_app_name to subject body : string) :
  callback_urls self !! logic_app_name = None →
  trace (run env (create_send_email_function logic_app_name to subject body) self)
  = [ Printed "📧 SIMULATED EMAIL:";
      Printed ("   To: " +:+ to);
      Printed ("   Subject: " +:+ subject);
      Printed ("   Body: " +:+ body);
      Printed "📧 Email sent via Logic App:" ].
Proof.
  intros Hnone. unfold create_send_email_function.
  rewrite run_send_email. cbv zeta.
  by rewrite (run_invoke_unregistered _ _ _ _ Hnone).
Qed.

Lemma tool_simulation_shows_arguments_witness :
  callback_urls Examples.fresh !! "sales-alert" = None
  ∧ printed (trace (run (Examples.unreachable "no route to host")
                      (create_send_email_function "sales-alert" "a@b.com" "Q3" "Great quarter")
                      Examples.fresh))
    = [ "📧 SIMULATED EMAIL:"; "   To: a@b.com"; "   Subject: Q3";
        "   Body: Great quarter"; "📧 Email sent via Logic App:" ].
Proof.
  split; [reflexivity|].
  rewrite (tool_simulation_shows_arguments (Examples.unreachable "no route to host")
             Examples.fresh "sales-alert" "a@b.com" "Q3" "Great quarter" eq_refl).
  reflexivity.
Defined.

Lemma tool_post_of_registered_name (env : environment) (self : AzureLogicAppTool)
    (logic_app_name to subject body : string) (url : option string) :
  callback_urls self !! logic_app_name = Some url →
  posts (trace (run env (create_send_email_function logic_app_name to subject body) self))
  = [(url, {[ "to" := to; "subject" := subject; "body" := body ]}, 30%Z)].
Proof.
  intros Hurl. unfold create_send_email_function.
  rewrite run_send_email. cbv zeta.
  rewrite (run_invoke_registered _ _ _ _ _ Hurl).
  by destruct (post_answer env url _ 30) as [response|e];
    [destruct (requests.ok response)|].
Qed.

(** X8. When the bound name is registered, a call of the tool makes one
    POST, to the stored endpoint, of the payload with its three arguments and
    timeout 30; and the last line it prints says the email was sent whatever
    came of the POST, also when it raised or was refused. *)
Theorem tool_posts_its_arguments (env : environment) (self : AzureLogicAppTool)
    (logic_app_name to subject body : string) (url : option string) :
  callback_urls self !! logic_app_name = Some url →
  posts (trace (run env (create_send_email_function logic_app_name to subject body) self))
  = [(url, {[ "to" := to; "subject" := subject; "body" := body ]}, 30%Z)]
  ∧ last (printed (trace (run env
                            (create_send_email_function logic_app_name to subject body)
                            self)))
    = Some "📧 Email sent via Logic App:".
Proof.
  intros Hurl. unfold create_send_email_function.
  rewrite run_send_email. cbv zeta.
  rewrite (run_invoke_registered _ _ _ _ _ Hurl).
  by destruct (post_answer env url _ 30) as [response|e];
    [destruct (requests.ok response)|].
Qed.

Lemma tool_posts_its_arguments_witness :
  callback_urls Examples.registered !! "sales-alert" = Some (Some Examples.hook)
  ∧ last (printed (trace (run (Examples.unreachable "connection reset")
                            (create_send_email_function "sales-alert" "a@b.com" "Q3"
                               "Great quarter")
                            Examples.registered)))
    = Some "📧 Email sent via Logic App:".
Proof.
  split; [reflexivity|].
  exact (proj2 (tool_posts_its_arguments (Examples.unreachable "connection reset")
                  Examples.registered "sales-alert" "a@b.com" "Q3" "Great quarter"
                  (Some Examples.hook) eq_refl)).
Defined.

(** ** The text the tool returns *)

Lemma printable_app (a b : string) :
  printable (a +:+ b) = printable a && printable b.
Proof.
  induction a as [|c a IH]; [done|]. simpl.
  by rewrite IH, andb_assoc.
Qed.

Lemma hex_digit_printable (d : N) :
  (d < 16)%N → printable_char (json.hex_digit d) = true.
Proof.
  intros Hd.
  destruct d as [|p]; [done|].
  do 4 (destruct p as [p|p|]; try done); lia.
Qed.

Lemma low_nibble_bound (n : N) : (N.land n 0xF < 16)%N.
Proof.
  change 0xF%N with (N.ones 4). rewrite N.land_ones. by apply N.mod_lt.
Qed.

Lemma u_escape_printable (n : N) : printable (json.u_escape n) = true.
Proof.
  unfold json.u_escape. cbn [printable].
  rewrite !hex_digit_printable by apply low_nibble_bound. done.
Qed.

Lemma escape_printable (n : N) : printable (json.escape n) = true.
Proof.
  unfold json.escape.
  do 7 (match goal with |- context [if ?b then _ else _] => destruct b; [done|] end).
  destruct ((0x20 <=? n)%N && (n <=? 0x7E)%N) eqn:Hrange.
  - cbn [printable]. unfold printable_char.
    rewrite N_ascii_embedding; [by rewrite Hrange|].
    apply andb_true_iff in Hrange as [_ Hle]. apply N.leb_le in Hle. lia.
  - destruct (n <? 0x10000)%N; [apply u_escape_printable|].
    by rewrite printable_app, !u_escape_printable.
Qed.

Lemma encode_printable (s : string) :
  printable (json.encode_basestring_ascii s) = true.
Proof.
  unfold json.encode_basestring_ascii. rewrite !printable_app.
  apply andb_true_iff; split; [done|]. apply andb_true_iff; split; [|done].
  induction (json.code_points s) as [|n l IH]; [done|]. simpl.
  by rewrite printable_app, escape_printable, IH.
Qed.

Lemma join_printable (l : list string) :
  Forall (λ x, printable x = true) l → printable (json.join ", " l) = true.
Proof.
  induction 1 as [|x l Hx Hl IH]; [done|].
  destruct l as [|y l]; [done|].
  change (json.join ", " (x :: y :: l)) with (x +:+ ", " +:+ json.join ", " (y :: l)).
  by rewrite !printable_app, Hx, IH.
Qed.

Lemma dumps_printable (d : list (string * string)) :
  printable (json.dumps d) = true.
Proof.
  unfold json.dumps. rewrite !printable_app.
  apply andb_true_iff; split; [done|]. apply andb_true_iff; split; [|done].
  apply join_printable. rewrite Forall_fmap. apply Forall_forall. intros [k v] _.
  unfold compose, json.dumps_item. cbn [fst snd].
  rewrite !printable_app, !encode_printable. done.
Qed.

Lemma code_points_low (c : ascii) (s : string) :
  (N_of_ascii c <? 0xC0)%N = true →
  json.code_points (String c s) = N_of_ascii c :: json.code_points s.
Proof.
  intros Hlow. cbn [json.code_points]. cbv zeta. by rewrite Hlow.
Qed.

Lemma plain_char_low (c : ascii) :
  plain_char c = true → (N_of_ascii c <? 0xC0)%N = true.
Proof.
  unfold plain_char. cbv zeta. rewrite !andb_true_iff, !N.leb_le, N.ltb_lt. lia.
Qed.

Lemma escape_plain_char (c : ascii) :
  plain_char c = true → json.escape (N_of_ascii c) = String c EmptyString.
Proof.
  unfold plain_char. cbv zeta.
  rewrite !andb_true_iff, !negb_true_iff, !N.leb_le, !N.eqb_neq.
  intros [[[Hlo Hhi] Hquote] Hslash]. unfold json.escape.
  rewrite (proj2 (N.eqb_neq _ _) Hquote), (proj2 (N.eqb_neq _ _) Hslash).
  do 5 (match goal with
        | |- context [(?a =? ?b)%N] => destruct (N.eqb_spec a b); [lia|]
        end).
  rewrite (proj2 (N.leb_le _ _) Hlo), (proj2 (N.leb_le _ _) Hhi). simpl.
  by rewrite ascii_N_embedding.
Qed.

Lemma encode_plain (s : string) :
  plain s = true →
  json.encode_basestring_ascii s = json.quote +:+ s +:+ json.quote.
Proof.
  intros Hplain. unfold json.encode_basestring_ascii. do 2 f_equal.
  induction s as [|c s IH]; [done|].
  cbn [plain] in Hplain. apply andb_true_iff in Hplain as [Hc Hs].
  rewrite code_points_low by by apply plain_char_low.
  cbn [foldr]. by rewrite escape_plain_char, IH.
Qed.

Lemma plain_app (a b : string) : plain (a +:+ b) = plain a && plain b.
Proof.
  induction a as [|c a IH]; [done|]. simpl. by rewrite IH, andb_assoc.
Qed.

(** X9. The string the tool returns holds printable ASCII only, whatever
    is in the name, the arguments, the body of the response or the
    description of an exception: [json.dumps] escapes every other
    character. *)
Theorem tool_returns_printable_ascii (env : environment) (self : AzureLogicAppTool)
    (logic_app_name to subject body : string) :
  ∃ text,
    result (run env (create_send_email_function logic_app_name to subject body) self)
    = Returned text
    ∧ printable text = true.
Proof.
  destruct (dispatch_returns env self logic_app_name
              {[ "to" := to; "subject" := subject; "body" := body ]}) as [d Hd].
  exists (json.dumps d). split; [|apply dumps_printable].
  unfold create_send_email_function. rewrite run_send_email. cbv zeta. by rewrite Hd.
Qed.

Lemma string_append_assoc (a b c : string) : (a +:+ b) +:+ c = a +:+ b +:+ c.
Proof.
  induction a as [|x a IH]; [done|].
  change (String x ((a +:+ b) +:+ c) = String x (a +:+ b +:+ c)). by f_equal.
Qed.

(** X10. For a name of printable ASCII characters without double quote
    and backslash, the string the tool returns holds the message as it is,
    between quotes: the JSON object with the member [result] and the
    simulated message when the name is not registered, and with the invoked
    message when the POST is answered with an [ok] response. *)
Theorem tool_returns_message_verbatim (env : environment) (self : AzureLogicAppTool)
    (logic_app_name to subject body : string) :
  plain logic_app_name = true →
  (callback_urls self !! logic_app_name = None →
   result (run env (create_send_email_function logic_app_name to subject body) self)
   = Returned ("{" +:+ json.quote +:+ "result" +:+ json.quote +:+ ": " +:+ json.quote
               +:+ "Successfully simulated email via " +:+ logic_app_name +:+ "."
               +:+ json.quote +:+ "}"))
  ∧ (∀ url response,
       callback_urls self !! logic_app_name = Some url →
       post_answer env url {[ "to" := to; "subject" := subject; "body" := body ]} 30
       = Returned response →
       requests.ok response = true →
       result (run env (create_send_email_function logic_app_name to subject body) self)
       = Returned ("{" +:+ json.quote +:+ "result" +:+ json.quote +:+ ": " +:+ json.quote
                   +:+ "Successfully invoked " +:+ logic_app_name +:+ "."
                   +:+ json.quote +:+ "}")).
Proof.
  intros Hplain. unfold create_send_email_function. rewrite run_send_email. cbv zeta.
  split.
  - intros Hnone. rewrite (run_invoke_unregistered _ _ _ _ Hnone). cbn [result].
    rewrite dumps_one_item by by left. unfold simulated_message.
    rewrite encode_plain; [simpl; by rewrite !string_append_assoc|].
    by rewrite !plain_app, Hplain.
  - intros url response Hurl Hpost Hok.
    rewrite (run_invoke_registered _ _ _ _ _ Hurl), Hpost, Hok. cbn [result].
    rewrite dumps_one_item by by left. unfold invoked_message.
    rewrite encode_plain; [simpl; by rewrite !string_append_assoc|].
    by rewrite !plain_app, Hplain.
Qed.

Lemma tool_returns_message_verbatim_witness :
  plain "sales-alert" = true
  ∧ result (run (Examples.unreachable "no route to host")
              (create_send_email_function "sales-alert" "a@b.com" "Q3" "Great quarter")
              Examples.fresh)
    = Returned ("{" +:+ json.quote +:+ "result" +:+ json.quote +:+ ": " +:+ json.quote
                +:+ "Successfully simulated email via " +:+ "sales-alert" +:+ "."
                +:+ json.quote +:+ "}").
Proof.
  split; [reflexivity|].
  exact (proj1 (tool_returns_message_verbatim (Examples.unreachable "no route to host")
                  Examples.fresh "sales-alert" "a@b.com" "Q3" "Great quarter" eq_refl)
           eq_refl).
Defined.

(** * The cells around the class *)

(** ** The environment variables *)





(** ** Setting the tool up *)

Lemma run_configure_logic_app_tool (env : environment) (self : AzureLogicAppTool) :
  run env notebook.configure_logic_app_tool self
  = Ran (Returned tt)
      (after (run env (register_logic_app notebook.logic_app_name
                         notebook.trigger_name) self))
      (trace (run env (register_logic_app notebook.logic_app_name
                         notebook.trigger_name) self)
       ++ [ Printed "Registered logic app 'agent-logic-apps' with trigger 'When_a_HTTP_request_is_received'.";
            Printed "✅ Logic App tool configured for: agent-logic-apps";
            Printed "🔧 Trigger: When_a_HTTP_request_is_received";
            Printed "📧 Email function created for workflow integration" ]).
Proof.
  unfold notebook.configure_logic_app_tool. rewrite run_bind.
  rewrite run_register_returns. reflexivity.
Qed.



(** X13. After the cell that sets the tool up, what [send_email_func] does
    is decided by the one registration of the cell: when the resolver
    returned a callback URL every call POSTs its three arguments there;
    when the resolver failed every call is simulated, makes no POST and
    returns a Success. *)
Theorem setup_decides_the_tool (env env' : environment) (subscription group : string)
    (to subject body : string) :
  match callback_answer env group "agent-logic-apps" "When_a_HTTP_request_is_received" with
  | Returned {| value := Some url |} =>
      posts (trace (run env' (notebook.send_email_func to subject body)
                      (after (run env notebook.configure_logic_app_tool
                                (notebook.logic_app_tool subscription group)))))
      = [(Some url, {[ "to" := to; "subject" := subject; "body" := body ]}, 30%Z)]
  | _ =>
      posts (trace (run env' (notebook.send_email_func to subject body)
                      (after (run env notebook.configure_logic_app_tool
                                (notebook.logic_app_tool subscription group)))))
      = []
      ∧ result (run env' (notebook.send_email_func to subject body)
                  (after (run env notebook.configure_logic_app_tool
                            (notebook.logic_app_tool subscription group))))
        = Returned (json.dumps [("result",
                                 "Successfully simulated email via agent-logic-apps.")])
  end.
Proof.
  rewrite run_configure_logic_app_tool. cbn [after]. rewrite run_register.
  unfold notebook.logic_app_tool. cbn [resource_group __init__].
  unfold notebook.logic_app_name, notebook.trigger_name, notebook.send_email_func.
  destruct (callback_answer env group "agent-logic-apps"
              "When_a_HTTP_request_is_received") as [[[url|]]|e]; cbn [after].
  - apply tool_post_of_registered_name. apply lookup_insert_eq.
  - unfold create_send_email_function. rewrite run_send_email. cbv zeta.
    by rewrite (run_invoke_unregistered _ _ _ _ (lookup_empty _)).
  - unfold create_send_email_function. rewrite run_send_email. cbv zeta.
    by rewrite (run_invoke_unregistered _ _ _ _ (lookup_empty _)).
Qed.

(** * Reading the answers *)

(** ** The first answer of the coordinator *)

Lemma print_agent_response_skips (before rest : list ThreadMessage) :
  Forall (λ msg, role msg ≠ "assistant" ∨ text_messages msg = []) before →
  connected_agents.print_agent_response (before ++ rest)
  = connected_agents.print_agent_response rest.
Proof.
  induction 1 as [|msg before Hskip _ IH]; [done|].
  cbn [app connected_agents.print_agent_response].
  destruct Hskip as [Hrole|Hempty].
  - by rewrite bool_decide_eq_false_2.
  - rewrite Hempty. cbn [last]. by destruct (bool_decide _).
Qed.

(** X14. The loop over the messages prints the answer of the first message
    that has the role [assistant] and some text: of that message it prints
    the last text part, and it reads no further, so whatever follows changes
    nothing.  Messages of another role and messages without text before it
    are passed over. *)
Theorem agent_response_is_first_answer (before rest : list ThreadMessage)
    (msg : ThreadMessage) (value : string) :
  Forall (λ msg, role msg ≠ "assistant" ∨ text_messages msg = []) before →
  role msg = "assistant" →
  last (text_messages msg) = Some value →
  connected_agents.print_agent_response (before ++ msg :: rest)
  = [ "🤖 Agent response: " +:+ value ].
Proof.
  intros Hbefore Hrole Hlast. rewrite print_agent_response_skips by done.
  cbn [connected_agents.print_agent_response].
  by rewrite bool_decide_eq_true_2, Hlast.
Qed.

Lemma agent_response_is_first_answer_witness :
  Forall (λ msg, role msg ≠ "assistant" ∨ text_messages msg = [])
    [ {| role := "user"; text_messages := ["What is the weather?"] |};
      {| role := "assistant"; text_messages := [] |} ]
  ∧ connected_agents.print_agent_response
      ([ {| role := "user"; text_messages := ["What is the weather?"] |};
         {| role := "assistant"; text_messages := [] |} ]
       ++ {| role := "assistant"; text_messages := ["Checking."; "60 and cloudy."] |}
          :: [ {| role := "assistant"; text_messages := ["Anything else?"] |} ])
    = [ "🤖 Agent response: 60 and cloudy." ].
Proof.
  assert (Forall (λ msg, role msg ≠ "assistant" ∨ text_messages msg = [])
            [ {| role := "user"; text_messages := ["What is the weather?"] |};
              {| role := "assistant"; text_messages := [] |} ]) as Hbefore.
  { apply Forall_cons_2; [left; discriminate|].
    apply Forall_cons_2; [by right|]. apply Forall_nil_2. }
  split; [exact Hbefore|].
  exact (agent_response_is_first_answer _
           [ {| role := "assistant"; text_messages := ["Anything else?"] |} ]
           {| role := "assistant"; text_messages := ["Checking."; "60 and cloudy."] |}
           "60 and cloudy." Hbefore eq_refl eq_refl).
Defined.

(** X15. The loop prints at most one line, and it prints none exactly when
    no message has both the role [assistant] and some text. *)
Theorem agent_response_is_one_line_or_none (messages : list ThreadMessage) :
  length (connected_agents.print_agent_response messages) ≤ 1
  ∧ (connected_agents.print_agent_response messages = []
     ↔ Forall (λ msg, role msg ≠ "assistant" ∨ text_messages msg = []) messages).
Proof.
  induction messages as [|msg rest [IHlen IHnone]].
  { split; [simpl; lia|]. split; [constructor|done]. }
  cbn [connected_agents.print_agent_response].
  destruct (bool_decide (role msg = "assistant")) eqn:Hrole.
  - apply bool_decide_eq_true in Hrole.
    destruct (last (text_messages msg)) as [value|] eqn:Hlast.
    + split; [simpl; lia|]. split; [done|].
      intros Hall. apply Forall_cons in Hall as [[Hno|Hempty] _]; [done|].
      by rewrite Hempty in Hlast.
    + apply last_None in Hlast. split; [done|]. rewrite IHnone, Forall_cons.
      split; [intros Hrest; split; [by right|done] | by intros [_ Hrest]].
  - apply bool_decide_eq_false in Hrole.
    split; [done|]. rewrite IHnone, Forall_cons.
    split; [intros Hrest; split; [by left|done] | by intros [_ Hrest]].
Qed.

Lemma agent_response_is_one_line_or_none_witness :
  Forall (λ msg, role msg ≠ "assistant" ∨ text_messages msg = [])
    [Conversations.question; Conversations.tool_call]
  ∧ connected_agents.print_agent_response
      [Conversations.question; Conversations.tool_call]
    = [].
Proof.
  assert (Forall (λ msg, role msg ≠ "assistant" ∨ text_messages msg = [])
            [Conversations.question; Conversations.tool_call]) as Hnone.
  { apply Forall_cons_2; [left; discriminate|].
    apply Forall_cons_2; [by right|]. apply Forall_nil_2. }
  split; [exact Hnone|].
  exact (proj2 (proj2 (agent_response_is_one_line_or_none
                         [Conversations.question; Conversations.tool_call])) Hnone).
Defined.


(** ** The conversation of the Logic Apps agent *)

(** X16. The loop over the conversation prints two lines for each message
    that has text, and nothing for a message without: the message's header,
    with its role in upper case and the last of its text parts, is printed
    for every message with text, and every line printed is such a header or
    the rule of 80 dashes. *)
Theorem conversation_shows_messages_with_text (upper : string → string)
    (messages : list ThreadMessage) :
  length (print_conversation upper messages)
  = 2 * length (filter (λ msg, text_messages msg ≠ []) messages)
  ∧ (∀ msg value,
       msg ∈ messages → last (text_messages msg) = Some value →
       newline +:+ "🗨️ " +:+ upper (role msg) +:+ ": " +:+ value
       ∈ print_conversation upper messages)
  ∧ (∀ line,
       line ∈ print_conversation upper messages →
       line = dashes 80
       ∨ ∃ msg value,
           msg ∈ messages ∧ last (text_messages msg) = Some value
           ∧ line = newline +:+ "🗨️ " +:+ upper (role msg) +:+ ": " +:+ value).
Proof.
  induction messages as [|msg rest (IHlen & IHin & IHout)].
  { split_and!; [done|by intros ?? ?%elem_of_nil|by intros ? ?%elem_of_nil]. }
  cbn [print_conversation].
  destruct (last (text_messages msg)) as [value|] eqn:Hlast.
  - assert (text_messages msg ≠ []) as Htext by (by intros Heq; rewrite Heq in Hlast).
    split_and!.
    + rewrite filter_cons_True by done. cbn [length]. rewrite IHlen. lia.
    + intros msg' value' [->|Hin]%elem_of_cons Hlast'.
      * rewrite Hlast in Hlast'. injection Hlast' as <-. apply list_elem_of_here.
      * do 2 apply list_elem_of_further. by apply IHin.
    + intros line [->|[->|Hin]%elem_of_cons]%elem_of_cons.
      * right. exists msg, value. split_and!; [apply list_elem_of_here|done..].
      * by left.
      * destruct (IHout line Hin) as [->|(msg' & value' & Hin' & Hlast' & ->)];
          [by left|].
        right. exists msg', value'. split_and!; [by apply list_elem_of_further|done..].
  - apply last_None in Hlast. split_and!.
    + by rewrite filter_cons_False by (by intros Hne).
    + intros msg' value' [->|Hin]%elem_of_cons Hlast'.
      * by rewrite Hlast in Hlast'.
      * by apply IHin.
    + intros line Hin.
      destruct (IHout line Hin) as [->|(msg' & value' & Hin' & Hlast' & ->)];
        [by left|].
      right. exists msg', value'. split_and!; [by apply list_elem_of_further|done..].
Qed.

Lemma conversation_shows_messages_with_text_witness :
  Conversations.answer
  ∈ [Conversations.question; Conversations.tool_call; Conversations.answer]
  ∧ newline +:+ "🗨️ " +:+ "ASSISTANT" +:+ ": " +:+ "The email was sent."
    ∈ print_conversation Conversations.upper
        [Conversations.question; Conversations.tool_call; Conversations.answer].
Proof.
  assert (Conversations.answer
          ∈ [Conversations.question; Conversations.tool_call; Conversations.answer])
    as Hin by (by repeat constructor).
  split; [exact Hin|].
  exact (proj1 (proj2 (conversation_shows_messages_with_text Conversations.upper
                         [Conversations.question; Conversations.tool_call;
                          Conversations.answer]))
           Conversations.answer "The email was sent." Hin eq_refl).
Defined.


(** ** The answers of the Semantic Kernel coordinator *)

Lemma coordinator_rounds (responses : list string) (final : option string)
    (lines : list string) :
  foldl connected_agents.coordinator_round (final, lines) responses
  = (match last responses with
     | Some content => Some content
     | None => final
     end,
     lines ++ ((λ content, "🤖 SK Coordinator: " +:+ content) <$> responses)).
Proof.
  revert final lines.
  induction responses as [|content responses IH]; intros final lines.
  - by rewrite app_nil_r.
  - cbn [foldl]. unfold connected_agents.coordinator_round at 2. cbn [snd].
    rewrite IH, last_cons, fmap_cons, <-app_assoc.
    by destruct (last responses).
Qed.

(** X17. [create_sk_coordinator] prints its four opening lines and then one
    line for each response of the coordinator, in order, and returns the
    content of the last response.  When the coordinator yields no response
    the variable [final_response] was never assigned, and the function ends
    in an [UnboundLocalError] instead of returning. *)
Theorem coordinator_returns_last_response (responses : list string) :
  (connected_agents.create_sk_coordinator responses).1
  = match last responses with
    | Some content => Returned content
    | None => Raised (connected_agents.UnboundLocalError "final_response")
    end
  ∧ (connected_agents.create_sk_coordinator responses).2
    = [ "🔗 Creating SK client and agent wrappers...";
        "🎯 Azure AI agents wrapped as SK plugins";
        newline +:+ "🧪 Testing SK coordinator with Azure AI agent plugins...";
        "👤 User: Get me Microsoft's stock price and Seattle's weather" ]
      ++ ((λ content, "🤖 SK Coordinator: " +:+ content) <$> responses).
Proof.
  unfold connected_agents.create_sk_coordinator. cbv zeta.
  rewrite coordinator_rounds. cbn [fst snd].
  by destruct (last responses).
Qed.

(** * The table over the life of an object *)

(** X18. No operation removes a name from the table: a name that is
    registered stays registered after any operation, whatever the remote
    services do.  Its endpoint can only change by a registration of that
    same name; every other operation leaves it as it is. *)
Theorem registered_names_stay_registered (env : environment) (op : operation)
    (self : AzureLogicAppTool) (name : string) :
  is_Some (callback_urls self !! name) →
  is_Some (callback_urls (perform env op self) !! name)
  ∧ ((∀ trigger_name, op ≠ Register name trigger_name) →
     callback_urls (perform env op self) !! name = callback_urls self !! name).
Proof.
  intros Hregistered.
  destruct op as [logic_app_name trigger_name|logic_app_name payload
                 |logic_app_name to subject body]; cbn [perform].
  - destruct (run_register_table env self logic_app_name trigger_name) as [->|[url ->]];
      [done|].
    simpl. destruct (decide (logic_app_name = name)) as [->|Hother].
    + rewrite lookup_insert_eq. split; [by eexists|].
      intros Hop. by destruct (Hop trigger_name).
    + by rewrite lookup_insert_ne.
  - by rewrite dispatch_keeps_object.
  - by rewrite tool_keeps_object.
Qed.

Lemma registered_names_stay_registered_witness :
  is_Some (callback_urls Examples.registered !! "sales-alert")
  ∧ is_Some (callback_urls
               (perform (Examples.unreachable "no route to host")
                  (Register "sales-alert" "manual") Examples.registered)
             !! "sales-alert").
Proof.
  assert (is_Some (callback_urls Examples.registered !! "sales-alert")) as Hregistered
    by (by eexists).
  split; [exact Hregistered|].
  exact (proj1 (registered_names_stay_registered (Examples.unreachable "no route to host")
                  (Register "sales-alert" "manual") Examples.registered "sales-alert"
                  Hregistered)).
Defined.
